(** * review_parser.py: a shallow embedding and its specification

    The script reads search terms from the first column of every sheet of a
    workbook, submits each one through a remote-controlled browser, reads a
    star score and a review count off the result page and writes one
    [;]-separated row per query.

    Python text is modelled as [string], that is as the UTF-8 bytes of the
    text.  Every character the script looks for ([,], [.], the space, [;],
    the double quote, CR and LF) is ASCII, and an ASCII byte never occurs
    inside a multi-byte UTF-8 sequence, so working on bytes agrees with
    working on code points. *)

From Stdlib Require Import String Ascii List Bool Arith ZArith QArith Lia.
From Stdlib Require Import DecimalString.
Import ListNotations.

Local Close Scope Q_scope.
Local Open Scope string_scope.
Local Open Scope list_scope.

(** ** Cell values

    With [data_only=True] openpyxl hands back plain Python scalars: text,
    booleans, numbers, and for cells with a date or time format a
    [datetime], a [time] or, for durations, a [timedelta].  A [datetime] and
    a [time] are kept as an opaque stamp, a [timedelta] as its length in
    microseconds, a float as the rational it denotes (there is no NaN in a
    worksheet cell). *)

Inductive value : Type :=
| VNone
| VStr (s : string)
| VBool (b : bool)
| VInt (n : Z)
| VFloat (x : Q)
| VDateTime (t : Z)
| VTime (t : Z)
| VTimeDelta (us : Z).

(** [bool(v)]: what [if v:] tests. *)
Definition py_truthy (v : value) : bool :=
  match v with
  | VNone => false
  | VStr s => negb (String.eqb s "")
  | VBool b => b
  | VInt n => negb (Z.eqb n 0)
  | VFloat x => negb (Qeq_bool x 0)
  | VDateTime _ => true
  | VTime _ => true
  | VTimeDelta us => negb (Z.eqb us 0)
  end.

(** The number a numeric value stands for; [True] is [1] and [False] is [0]. *)
Definition py_number (v : value) : option Q :=
  match v with
  | VBool b => Some (inject_Z (if b then 1 else 0)%Z)
  | VInt n => Some (inject_Z n)
  | VFloat x => Some x
  | _ => None
  end.

(** [a == b], which is also the identity of dictionary keys: numbers compare
    by value across [bool], [int] and [float]; other types only with their
    own kind. *)
Definition py_eq (a b : value) : bool :=
  match py_number a, py_number b with
  | Some x, Some y => Qeq_bool x y
  | Some _, None | None, Some _ => false
  | None, None =>
      match a, b with
      | VNone, VNone => true
      | VStr s, VStr t => String.eqb s t
      | VDateTime s, VDateTime t => Z.eqb s t
      | VTime s, VTime t => Z.eqb s t
      | VTimeDelta s, VTimeDelta t => Z.eqb s t
      | _, _ => false
      end
  end.

(** ** Python string methods used by the script *)

(** [s.replace(old, new)] for a non-empty [old]: leftmost non-overlapping
    occurrences.  [skip] counts the characters of a matched occurrence that
    are still to be passed over. *)
Fixpoint replace_from (old new : string) (skip : nat) (s : string) : string :=
  match s with
  | EmptyString => EmptyString
  | String c s' =>
      match skip with
      | S k => replace_from old new k s'
      | O =>
          if String.prefix old s
          then new ++ replace_from old new (Nat.pred (String.length old)) s'
          else String c (replace_from old new 0 s')
      end
  end.

(** With an empty [old] Python puts [new] before every character and at the
    end. *)
Fixpoint intersperse_all (new s : string) : string :=
  match s with
  | EmptyString => new
  | String c s' => new ++ String c (intersperse_all new s')
  end.

Definition py_replace (old new s : string) : string :=
  match old with
  | EmptyString => intersperse_all new s
  | _ => replace_from old new 0 s
  end.

(** [s.split(sep)] for a non-empty [sep]; [cur] is the piece being read, in
    reverse. *)
Fixpoint rev_string (acc s : string) : string :=
  match s with
  | EmptyString => acc
  | String c s' => rev_string (String c acc) s'
  end.

Fixpoint split_from (sep : string) (skip : nat) (cur : string) (s : string)
  : list string :=
  match s with
  | EmptyString => [rev_string "" cur]
  | String c s' =>
      match skip with
      | S k => split_from sep k cur s'
      | O =>
          if String.prefix sep s
          then rev_string "" cur
               :: split_from sep (Nat.pred (String.length sep)) "" s'
          else split_from sep 0 (String c cur) s'
      end
  end.

Definition py_split (sep s : string) : list string := split_from sep 0 "" s.

(** ** The query extractor *)

Definition MAX_QUERIES : nat := 100.

Record Cell : Type := { cell_value : value }.

(** A row is a tuple of cells; the script also guards against a missing
    first cell. *)
Definition Row : Type := list (option Cell).
Definition Sheet : Type := list Row.
Definition Workbook : Type := list Sheet.

(** [row and row[0] is not None and row[0].value] *)
Definition first_cell_kept (row : Row) : option value :=
  match row with
  | [] => None
  | None :: _ => None
  | Some c :: _ => if py_truthy (cell_value c) then Some (cell_value c) else None
  end.

Fixpoint collect_rows (rows : list Row) (queries : list value) : list value :=
  match rows with
  | [] => queries
  | row :: rest =>
      match first_cell_kept row with
      | Some v => collect_rows rest (queries ++ [v])
      | None => collect_rows rest queries
      end
  end.

Fixpoint collect_sheets (sheets : Workbook) (queries : list value) : list value :=
  match sheets with
  | [] => queries
  | sheet :: rest => collect_sheets rest (collect_rows sheet queries)
  end.

Definition header_label : value := VStr "Agent Name".

(** [if queries and queries[0] == 'Agent Name': queries = queries[1:]] *)
Definition strip_header (queries : list value) : list value :=
  match queries with
  | q :: rest => if py_eq q header_label then rest else queries
  | [] => queries
  end.

Definition parse_queries_from_xlsx_file (workbook : Workbook) : list value :=
  strip_header (collect_sheets workbook []).

(** [queries[:MAX_QUERIES]] in [main]. *)
Definition retained_queries (workbook : Workbook) : list value :=
  firstn MAX_QUERIES (parse_queries_from_xlsx_file workbook).

(** ** Exceptions, the outside world and the monad of the script

    [exn] stands for the subclasses of [Exception] a driver call can raise;
    the script tells [NoSuchElementException] from all the others. *)

Inductive exn : Type :=
| NoSuchElementException
| OtherException (msg : string).

Inductive result (A : Type) : Type :=
| Return (a : A)
| Raise (e : exn).

Arguments Return {A} a.
Arguments Raise {A} e.

(** The browser session is an external collaborator: its state [D] and its
    element handles [E] are abstract, and every call may raise. *)
Class WebDriver (D E : Type) : Type := {
  wd_get : string -> D -> result unit * D;
  wd_find_element : string -> D -> result E * D;
  wd_current_url : D -> result string * D;
  el_clear : E -> D -> result unit * D;
  el_send_keys : E -> value -> D -> result unit * D;
  el_submit : E -> D -> result unit * D;
  el_text : E -> D -> result string * D
}.

(** [str()] of the values that have no closed form here. *)
Class PyText : Type := {
  float_str : Q -> string;
  datetime_str : Z -> string;
  time_str : Z -> string;
  timedelta_str : Z -> string
}.

(** What the script does to the browser and to the clock, in order. *)
Inductive event : Type :=
| Navigate (url : string)
| FindElement (xpath : string)
| Clear
| SendKeys (keys : value)
| Submit
| ReadText
| CurrentUrl
| Sleep (lo hi : Q).

(** The dictionary built by [parse_search_results]: [query] is always
    present, the other keys may be missing.  The dictionary is never changed
    once it has been returned, so the cache and the writer can share it as a
    value. *)
Record SearchResult : Type := {
  sr_query : value;
  sr_url : option string;
  sr_star_score : option string;
  sr_reviews_count : option string
}.

Inductive log_record : Type :=
| LogException (e : exn)
| LogNoReviewElements (query : value)
| LogCached (sr : SearchResult)
| LogParsed (sr : SearchResult)
| LogParsedCount (n : nat).

Record World (D : Type) : Type := {
  driver : D;
  trace : list event;
  log : list log_record;
  outfile : string
}.

Arguments driver {D} _.
Arguments trace {D} _.
Arguments log {D} _.
Arguments outfile {D} _.

Definition M (D A : Type) : Type := World D -> result A * World D.

Definition ret {D A} (a : A) : M D A := fun w => (Return a, w).

Definition raise {D A} (e : exn) : M D A := fun w => (Raise e, w).

Definition bind {D A B} (m : M D A) (k : A -> M D B) : M D B :=
  fun w =>
    match m w with
    | (Return a, w') => k a w'
    | (Raise e, w') => (Raise e, w')
    end.

(** [try: m] seen from the handler: the outcome becomes a value. *)
Definition attempt {D A} (m : M D A) : M D (result A) :=
  fun w => let (r, w') := m w in (Return r, w').

Notation "x <- m ;; k" := (bind m (fun x => k))
  (at level 61, m at next level, right associativity).
Notation "m ;;; k" := (bind m (fun _ => k))
  (at level 61, right associativity).

Definition record_event {D} (e : event) : M D unit :=
  fun w => (Return tt,
            {| driver := driver w; trace := trace w ++ [e];
               log := log w; outfile := outfile w |}).

Definition logger {D} (r : log_record) : M D unit :=
  fun w => (Return tt,
            {| driver := driver w; trace := trace w;
               log := log w ++ [r]; outfile := outfile w |}).

(** The report is an open text file that takes whatever is written to it;
    a failing disk is not part of the model. *)
Definition file_write {D} (text : string) : M D unit :=
  fun w => (Return tt,
            {| driver := driver w; trace := trace w;
               log := log w; outfile := outfile w ++ text |}).

(** A driver call: noted in the trace, then answered by the browser. *)
Definition call {D A} (e : event) (op : D -> result A * D) : M D A :=
  fun w =>
    let (r, d') := op (driver w) in
    (r, {| driver := d'; trace := trace w ++ [e];
           log := log w; outfile := outfile w |}).

(** [time.sleep(random.uniform(lo, hi))] *)
Definition sleep_uniform {D} (lo hi : Q) : M D unit := record_event (Sleep lo hi).

Definition dquote : string := String "034"%char EmptyString.
Definition CRLF : string := String "013"%char (String "010"%char EmptyString).

Definition xpath_search_field : string :=
  "//input[@name=" ++ dquote ++ "q" ++ dquote ++ "]".
Definition xpath_star_score : string :=
  "//div[contains(@data-attrid, " ++ dquote ++ "star_score" ++ dquote ++ ")]//span".
Definition xpath_reviews : string :=
  "//a[contains(@data-sort_by, " ++ dquote ++ "qualityScore" ++ dquote ++ ")]".

Section Script.

Context {D E : Type} `{WD : WebDriver D E} `{PT : PyText}.

Definition search_query_on_google (query : value) : M D unit :=
  search_field <- call (FindElement xpath_search_field)
                       (wd_find_element xpath_search_field) ;;
  call Clear (el_clear search_field) ;;;
  call (SendKeys query) (el_send_keys search_field query) ;;;
  sleep_uniform (2 # 10) 2 ;;;
  call Submit (el_submit search_field).

Definition parse_star_score : M D string :=
  el <- call (FindElement xpath_star_score) (wd_find_element xpath_star_score) ;;
  text <- call ReadText (el_text el) ;;
  ret (py_replace "," "." text).

Definition parse_number_of_reviews : M D string :=
  el <- call (FindElement xpath_reviews) (wd_find_element xpath_reviews) ;;
  text <- call ReadText (el_text el) ;;
  match py_split " " text with
  | token :: _ => ret token
  | [] => raise (OtherException "IndexError")
  end.

(** The body of the first [try] of [parse_search_results]: the submission,
    then [driver.current_url]. *)
Definition submit_and_read_url (query : value) : M D string :=
  search_query_on_google query ;;; call CurrentUrl wd_current_url.

(** The two [except] clauses of the second [try] of
    [parse_search_results]. *)
Definition review_handler (query : value) (e : exn) : M D unit :=
  match e with
  | NoSuchElementException => logger (LogNoReviewElements query)
  | _ => logger (LogException e)
  end.

Definition parse_search_results (query : value) : M D SearchResult :=
  let search_results :=
    {| sr_query := query; sr_url := None;
       sr_star_score := None; sr_reviews_count := None |} in
  submitted <- attempt (submit_and_read_url query) ;;
  match submitted with
  | Raise e => logger (LogException e) ;;; ret search_results
  | Return url =>
      let search_results :=
        {| sr_query := query; sr_url := Some url;
           sr_star_score := None; sr_reviews_count := None |} in
      star <- attempt parse_star_score ;;
      match star with
      | Raise e => review_handler query e ;;; ret search_results
      | Return score =>
          let search_results :=
            {| sr_query := query; sr_url := Some url;
               sr_star_score := Some score; sr_reviews_count := None |} in
          reviews <- attempt parse_number_of_reviews ;;
          match reviews with
          | Raise e => review_handler query e ;;; ret search_results
          | Return count =>
              ret {| sr_query := query; sr_url := Some url;
                     sr_star_score := Some score;
                     sr_reviews_count := Some count |}
          end
      end
  end.

(** *** The report: [csv.DictWriter] with the [excel] dialect and [;] *)

Definition fieldnames : list string :=
  ["query"; "star_score"; "reviews_count"; "url"].

Definition sr_get (sr : SearchResult) (key : string) : option value :=
  if String.eqb key "query" then Some (sr_query sr)
  else if String.eqb key "star_score" then option_map VStr (sr_star_score sr)
  else if String.eqb key "reviews_count" then option_map VStr (sr_reviews_count sr)
  else if String.eqb key "url" then option_map VStr (sr_url sr)
  else None.

(** [rowdict.get(key, restval)] for every field name, with [restval = '']. *)
Definition dict_to_list (sr : SearchResult) : list value :=
  map (fun key => match sr_get sr key with
                  | Some v => v
                  | None => VStr ""
                  end) fieldnames.

Definition py_str (v : value) : string :=
  match v with
  | VNone => "None"
  | VStr s => s
  | VBool true => "True"
  | VBool false => "False"
  | VInt n => NilZero.string_of_int (Z.to_int n)
  | VFloat x => float_str x
  | VDateTime t => datetime_str t
  | VTime t => time_str t
  | VTimeDelta us => timedelta_str us
  end.

(** The writer turns [None] into the empty text and anything else that is
    not text into [str(v)]. *)
Definition csv_text (v : value) : string :=
  match v with
  | VNone => ""
  | _ => py_str v
  end.

Fixpoint has_char (p : ascii -> bool) (s : string) : bool :=
  match s with
  | EmptyString => false
  | String c s' => p c || has_char p s'
  end.

Definition csv_special (c : ascii) : bool :=
  Ascii.eqb c ";"%char || Ascii.eqb c "034"%char
  || Ascii.eqb c "013"%char || Ascii.eqb c "010"%char.

(** [QUOTE_MINIMAL] with [doublequote]: a field is quoted when it holds the
    delimiter, the quote character or a line break. *)
Definition csv_field (s : string) : string :=
  if has_char csv_special s
  then dquote ++ py_replace dquote (dquote ++ dquote) s ++ dquote
  else s.

Fixpoint join (sep : string) (fields : list string) : string :=
  match fields with
  | [] => ""
  | [f] => f
  | f :: rest => f ++ sep ++ join sep rest
  end.

Definition csv_line (fields : list string) : string :=
  match fields with
  | [""] => dquote ++ dquote ++ CRLF
  | _ => join ";" (map csv_field fields) ++ CRLF
  end.

Definition writeheader : M D unit := file_write (csv_line fieldnames).

Definition row_text (sr : SearchResult) : string :=
  csv_line (map csv_text (dict_to_list sr)).

Definition writerow (sr : SearchResult) : M D unit := file_write (row_text sr).

(** *** The cache of results, a dictionary keyed by the query *)

Definition Cache : Type := list (value * SearchResult).

Fixpoint cache_get (seen : Cache) (query : value) : option SearchResult :=
  match seen with
  | [] => None
  | (k, sr) :: rest => if py_eq k query then Some sr else cache_get rest query
  end.

(** [seen[query] = sr]: an existing key keeps its place and its key object. *)
Fixpoint cache_set (seen : Cache) (query : value) (sr : SearchResult) : Cache :=
  match seen with
  | [] => [(query, sr)]
  | (k, old) :: rest =>
      if py_eq k query then (k, sr) :: rest
      else (k, old) :: cache_set rest query sr
  end.

(** The body of [for query in queries]. *)
Definition process_query (query : value) (seen : Cache) : M D Cache :=
  match cache_get seen query with
  | Some search_results =>
      logger (LogCached search_results) ;;;
      writerow search_results ;;;
      ret seen
  | None =>
      sleep_uniform 3 5 ;;;
      search_results <- parse_search_results query ;;
      logger (LogParsed search_results) ;;;
      let seen := cache_set seen query search_results in
      writerow search_results ;;;
      ret seen
  end.

Fixpoint process_queries (queries : list value) (seen : Cache) : M D Cache :=
  match queries with
  | [] => ret seen
  | query :: rest =>
      seen' <- process_query query seen ;;
      process_queries rest seen'
  end.

(** *** [main] *)

(** What the host answers to the start-up calls: [os.path.isfile],
    [create_webdriver], the loading of the workbook, and the [open] of the
    output file. *)
Record Host : Type := {
  input_is_file : bool;
  new_webdriver : result D;
  loaded_workbook : result Workbook;
  opened_report : result unit
}.

Record Outcome : Type := {
  exit_status : nat;
  report : option string;
  browser_trace : list event;
  log_file : list log_record
}.

Definition google_home : string := "https://google.com".

(** The body of the [with] block in the second [try] of [main], entered
    once the output file is open. *)
Definition write_report (queries : list value) : M D unit :=
  writeheader ;;;
  call (Navigate google_home) (wd_get google_home) ;;;
  process_queries queries [] ;;;
  ret tt.

Definition main (host : Host) : Outcome :=
  if negb (input_is_file host)
  then {| exit_status := 1; report := None; browser_trace := []; log_file := [] |}
  else
    match new_webdriver host with
    | Raise e =>
        {| exit_status := 1; report := None; browser_trace := [];
           log_file := [LogException e] |}
    | Return d =>
        match loaded_workbook host with
        | Raise e =>
            {| exit_status := 1; report := None; browser_trace := [];
               log_file := [LogException e] |}
        | Return workbook =>
            let queries := firstn MAX_QUERIES (parse_queries_from_xlsx_file workbook) in
            let w0 := {| driver := d; trace := [];
                         log := [LogParsedCount (length queries)];
                         outfile := "" |} in
            match opened_report host with
            | Raise e =>
                {| exit_status := 1; report := None; browser_trace := [];
                   log_file := log w0 ++ [LogException e] |}
            | Return _ =>
                match write_report queries w0 with
                | (Return _, w) =>
                    {| exit_status := 0; report := Some (outfile w);
                       browser_trace := trace w; log_file := log w |}
                | (Raise e, w) =>
                    {| exit_status := 1; report := Some (outfile w);
                       browser_trace := trace w;
                       log_file := log w ++ [LogException e] |}
                end
            end
        end
    end.

End Script.

(** ** Reference notions the properties are stated against *)

Definition concat_text (pieces : list string) : string :=
  fold_right String.append "" pieces.

(** The row belongs to the query: its [query] field is the query, up to the
    equality of dictionary keys. *)
Definition row_of_query (query : value) (sr : SearchResult) : Prop :=
  py_eq (sr_query sr) query = true.

(** Every cached dictionary is filed under a key equal to its own query. *)
Definition cache_ok (seen : Cache) : Prop :=
  forall k sr, cache_get seen k = Some sr -> py_eq (sr_query sr) k = true.

(** A computation that does not write to the report. *)
Definition keeps_file {D A : Type} (m : M D A) : Prop :=
  forall w, outfile (snd (m w)) = outfile w.

(** The page has an element for [xpath]: the lookup hands back a handle. *)
Definition element_found {D E : Type} {WD : WebDriver D E} (xpath : string) (d : D)
  : Prop :=
  exists el d', wd_find_element xpath d = (Return el, d').

(** The page has no element for [xpath]: the structural failure. *)
Definition element_absent {D E : Type} {WD : WebDriver D E} (xpath : string) (d : D)
  : Prop :=
  fst (wd_find_element xpath d) = Raise NoSuchElementException.

(** Following the spec's words: a value is non-empty when it is "not null,
    not empty string". *)
Definition nonempty_by_spec (v : value) : bool :=
  match v with
  | VNone => false
  | VStr EmptyString => false
  | _ => true
  end.

(** How many rows of the workbook have a first cell whose value passes
    [keep]. *)
Definition first_cell_passes (keep : value -> bool) (row : Row) : bool :=
  match row with
  | Some c :: _ => keep (cell_value c)
  | _ => false
  end.

Definition first_column_count (keep : value -> bool) (workbook : Workbook) : nat :=
  length (filter (first_cell_passes keep) (concat workbook)).

(** Whether the very first collected value is exactly ["Agent Name"]. *)
Definition starts_with_header (workbook : Workbook) : bool :=
  match collect_sheets workbook [] with
  | VStr s :: _ => String.eqb s "Agent Name"
  | _ => false
  end.

(** Following the spec's words: [min(100, total)] minus 1 when the first
    value is the header. *)
Definition query_count_by_spec (workbook : Workbook) : nat :=
  Nat.min 100 (first_column_count nonempty_by_spec workbook)
  - (if starts_with_header workbook then 1 else 0).

(** A value that is not empty and yet false for Python: the number zero,
    [False], a duration of no length. *)
Definition false_but_nonempty (v : value) : bool :=
  nonempty_by_spec v && negb (py_truthy v).

(** No row of the workbook has such a value in its first cell. *)
Definition free_of_false_values (workbook : Workbook) : bool :=
  forallb (fun row => negb (first_cell_passes false_but_nonempty row))
    (concat workbook).


Definition is_space (c : ascii) : bool := Ascii.eqb c " "%char.






(** The values a list of rows contributes, in the order of the rows. *)
Definition kept_values (rows : list Row) : list value :=
  flat_map (fun row => match first_cell_kept row with
                       | Some v => [v]
                       | None => []
                       end) rows.

(** A workbook cut down to its first column. *)
Definition first_column_only (workbook : Workbook) : Workbook :=
  map (map (firstn 1)) workbook.

(** The calls of one submission, in the order the script makes them. *)
Definition search_script (query : value) : list event :=
  [FindElement xpath_search_field; Clear; SendKeys query;
   Sleep (2 # 10) 2; Submit].

(** The pause between two new queries, [uniform(3, 5)]. *)
Definition is_pause (ev : event) : bool :=
  match ev with
  | Sleep lo hi => Qeq_bool lo 3 && Qeq_bool hi 5
  | _ => false
  end.

Definition is_submit (ev : event) : bool :=
  match ev with
  | Submit => true
  | _ => false
  end.

Definition count_events (p : event -> bool) (tr : list event) : nat :=
  length (filter p tr).

(** A computation that only adds to the trace, and at most [n] events that
    pass [p]. *)
Definition adds_at_most {D A : Type} (p : event -> bool) (n : nat) (m : M D A)
  : Prop :=
  forall w, exists tr,
    trace (snd (m w)) = trace w ++ tr /\ count_events p tr <= n.

(** A computation that does not write to the log. *)
Definition keeps_log {D A : Type} (m : M D A) : Prop :=
  forall w, log (snd (m w)) = log w.

Definition known_key (keys : list value) (query : value) : bool :=
  existsb (fun k => py_eq k query) keys.

(** The queries that are new when they come, given the keys already
    known: the first occurrence of each distinct query, in order. *)
Fixpoint first_occurrences (queries : list value) (keys : list value)
  : list value :=
  match queries with
  | [] => []
  | q :: rest =>
      if known_key keys q then first_occurrences rest keys
      else q :: first_occurrences rest (keys ++ [q])
  end.

Fixpoint drop_last (s : string) : string :=
  match s with
  | EmptyString => EmptyString
  | String _ EmptyString => EmptyString
  | String c s' => String c (drop_last s')
  end.

(** A reader's view of a field of the report: a field that opens with the
    quote character loses its two outer quotes and has every doubled quote
    turned back into one. *)
Definition unquote_field (field : string) : string :=
  match field with
  | EmptyString => EmptyString
  | String c rest =>
      if Ascii.eqb c "034"%char
      then py_replace (dquote ++ dquote) dquote (drop_last rest)
      else field
  end.


(** *** Reading a report back

    A reader for the format of the report, as a spreadsheet or [csv.reader]
    with the same dialect would read it: fields end at [;], rows at a line
    break, a field that opens with the quote character runs to its closing
    quote and holds a quote for every doubled one.  [field] is the field
    being read, in reverse, and [row] the fields read so far on the line,
    last one first. *)

Inductive read_mode : Type :=
| AtFieldStart
| InPlain
| InQuoted
| AfterQuote
| AfterCR.

Definition end_field (field : string) (row : list string) : list string :=
  rev_string "" field :: row.

Definition end_row (field : string) (row : list string) : list string :=
  rev (end_field field row).

(** A line with nothing on it is a row without fields. *)
Definition end_row_at_start (row : list string) : list string :=
  match row with
  | [] => []
  | _ => end_row "" row
  end.

Fixpoint read_from (mode : read_mode) (field : string) (row : list string)
         (s : string) : list (list string) :=
  match s with
  | EmptyString =>
      match mode with
      | AfterCR => []
      | AtFieldStart => match row with
                        | [] => []
                        | _ => [end_row field row]
                        end
      | _ => [end_row field row]
      end
  | String c s' =>
      let next := fun m f r => read_from m f r s' in
      let at_start := fun r =>
        if Ascii.eqb c "034"%char then next InQuoted "" r
        else if Ascii.eqb c ";"%char then next AtFieldStart "" (end_field "" r)
        else if Ascii.eqb c "013"%char
             then end_row_at_start r :: next AfterCR "" []
        else if Ascii.eqb c "010"%char
             then end_row_at_start r :: next AtFieldStart "" []
        else next InPlain (String c "") r in
      let after_field := fun f =>
        if Ascii.eqb c ";"%char then next AtFieldStart "" (end_field f row)
        else if Ascii.eqb c "013"%char then end_row f row :: next AfterCR "" []
        else if Ascii.eqb c "010"%char
             then end_row f row :: next AtFieldStart "" []
        else next InPlain (String c f) row in
      match mode with
      | AtFieldStart => at_start row
      | AfterCR =>
          if Ascii.eqb c "010"%char then next AtFieldStart "" []
          else at_start []
      | InPlain => after_field field
      | InQuoted =>
          if Ascii.eqb c "034"%char then next AfterQuote field row
          else next InQuoted (String c field) row
      | AfterQuote =>
          if Ascii.eqb c "034"%char then next InQuoted (String c field) row
          else after_field field
      end
  end.

Definition read_report (text : string) : list (list string) :=
  read_from AtFieldStart "" [] text.

Definition or_empty (field : option string) : string :=
  match field with
  | Some s => s
  | None => ""
  end.

(** The four fields of the row of a dictionary, as a reader sees them: the
    query, then the star score, the review count and the URL, each empty
    when it is missing. *)
Definition record_fields `{PyText} (sr : SearchResult) : list string :=
  [csv_text (sr_query sr); or_empty (sr_star_score sr);
   or_empty (sr_reviews_count sr); or_empty (sr_url sr)].

(** ** A small scripted browser, to run the script on concrete inputs *)

Record ToyPage : Type := {
  page_star : option string;
  page_reviews : option string
}.

(** The site: which queries cannot be submitted, and the panel each of the
    others shows. *)
Record ToySite : Type := {
  site_blocked : value -> bool;
  site_page : value -> ToyPage
}.

Inductive ToyElement : Type := TSearchField | TStar | TReviews.

Record ToyBrowser : Type := {
  typed : value;
  shown : option value
}.

Definition toy_panel (site : ToySite) (b : ToyBrowser) : ToyPage :=
  match shown b with
  | Some q => site_page site q
  | None => {| page_star := None; page_reviews := None |}
  end.

Definition toy_find (site : ToySite) (xpath : string) (b : ToyBrowser)
  : result ToyElement * ToyBrowser :=
  if String.eqb xpath xpath_search_field then (Return TSearchField, b)
  else if String.eqb xpath xpath_star_score then
    match page_star (toy_panel site b) with
    | Some _ => (Return TStar, b)
    | None => (Raise NoSuchElementException, b)
    end
  else if String.eqb xpath xpath_reviews then
    match page_reviews (toy_panel site b) with
    | Some _ => (Return TReviews, b)
    | None => (Raise NoSuchElementException, b)
    end
  else (Raise NoSuchElementException, b).

Definition toy_text (site : ToySite) (el : ToyElement) (b : ToyBrowser)
  : result string * ToyBrowser :=
  match el with
  | TSearchField => (Return (match typed b with VStr s => s | _ => "" end), b)
  | TStar =>
      match page_star (toy_panel site b) with
      | Some t => (Return t, b)
      | None => (Raise (OtherException "StaleElementReferenceException"), b)
      end
  | TReviews =>
      match page_reviews (toy_panel site b) with
      | Some t => (Return t, b)
      | None => (Raise (OtherException "StaleElementReferenceException"), b)
      end
  end.

Definition toy_submit (site : ToySite) (el : ToyElement) (b : ToyBrowser)
  : result unit * ToyBrowser :=
  if site_blocked site (typed b)
  then (Raise (OtherException "WebDriverException"), b)
  else (Return tt, {| typed := typed b; shown := Some (typed b) |}).

Definition ToyDriver (site : ToySite) : WebDriver ToyBrowser ToyElement := {|
  wd_get := fun _ b => (Return tt, {| typed := VStr ""; shown := None |});
  wd_find_element := toy_find site;
  wd_current_url := fun b => (Return "https://www.google.com/search", b);
  el_clear := fun _ b => (Return tt, {| typed := VStr ""; shown := shown b |});
  el_send_keys := fun _ keys b => (Return tt, {| typed := keys; shown := shown b |});
  el_submit := toy_submit site;
  el_text := toy_text site
|}.

Definition ToyText : PyText := {|
  float_str := fun _ => "0.0";
  datetime_str := fun _ => "1970-01-01 00:00:00";
  time_str := fun _ => "00:00:00";
  timedelta_str := fun _ => "0:00:00"
|}.

Definition toy_browser : ToyBrowser := {| typed := VStr ""; shown := None |}.



Definition toy_world (b : ToyBrowser) : World ToyBrowser :=
  {| driver := b; trace := []; log := []; outfile := "" |}.

(** A site that shows a star score of [4,5] and [1,234 reviews] for every
    query but ["Beta LLC"], which has a score and no review link, and that
    cannot submit ["down"]. *)
Definition demo_site : ToySite := {|
  site_blocked := fun q => py_eq q (VStr "down");
  site_page := fun q =>
    if py_eq q (VStr "Beta LLC")
    then {| page_star := Some "3,0"; page_reviews := None |}
    else {| page_star := Some "4,5"; page_reviews := Some "1,234 reviews" |}
|}.

Definition beta_query : value := VStr "Beta LLC".

(** The world once ["Beta LLC"] has been submitted to [demo_site] from a
    fresh browser. *)
Definition beta_submitted : World ToyBrowser :=
  snd (@submit_and_read_url _ _ (ToyDriver demo_site) beta_query
         (toy_world toy_browser)).


Definition acme_query : value := VStr "Acme Corp".
Definition down_query : value := VStr "down".

Definition text_cell (s : string) : Row := [Some {| cell_value := VStr s |}].

(** The header followed by a hundred queries. *)
Definition full_workbook : Workbook :=
  [text_cell "Agent Name" :: repeat (text_cell "Acme Corp") 100].

(** The scenario of the spec. *)
Definition scenario_workbook : Workbook :=
  [[text_cell "Agent Name"; text_cell "Acme Corp"; text_cell "";
    text_cell "Acme Corp"; text_cell "Beta LLC"]].

Definition header_only_workbook : Workbook := [[text_cell "Agent Name"]].

(** A host where everything starts up, in front of [demo_site]. *)
Definition demo_host (workbook : Workbook) : Host (D := ToyBrowser) :=
  {| input_is_file := true;
     new_webdriver := Return toy_browser;
     loaded_workbook := Return workbook;
     opened_report := Return tt |}.

(** Two sheets that both begin with the header. *)
Definition headed_sheet : Sheet := [text_cell "Agent Name"; text_cell "Acme Corp"].
Definition two_headed_workbook : Workbook := [headed_sheet; headed_sheet].

Definition zero_workbook : Workbook := [[[Some {| cell_value := VInt 0 |}]]].

(** * Properties *)

(** ** The query extractor *)

Lemma first_cell_kept_passes (row : Row) :
  first_cell_passes py_truthy row = true <-> exists v, first_cell_kept row = Some v.
Proof.
  destruct row as [| [c |] rest]; simpl.
  - split; [discriminate | intros [v Hv]; discriminate].
  - destruct (py_truthy (cell_value c)); split; eauto; try discriminate.
    intros [v Hv]; discriminate.
  - split; [discriminate | intros [v Hv]; discriminate].
Qed.

Lemma collect_rows_length (rows : list Row) :
  forall queries,
    length (collect_rows rows queries)
    = length queries + length (filter (first_cell_passes py_truthy) rows).
Proof.
  induction rows as [| row rest IH]; intros queries; simpl.
  - lia.
  - destruct (first_cell_kept row) as [v |] eqn:Hkept.
    + assert (Hpass : first_cell_passes py_truthy row = true)
        by (apply first_cell_kept_passes; eauto).
      rewrite Hpass, IH, length_app; simpl; lia.
    + destruct (first_cell_passes py_truthy row) eqn:Hpass.
      * apply first_cell_kept_passes in Hpass as [v Hv]; congruence.
      * apply IH.
Qed.

Lemma collect_sheets_length (workbook : Workbook) :
  forall queries,
    length (collect_sheets workbook queries)
    = length queries + first_column_count py_truthy workbook.
Proof.
  unfold first_column_count.
  induction workbook as [| sheet rest IH]; intros queries; simpl.
  - lia.
  - rewrite IH, collect_rows_length, filter_app, length_app; lia.
Qed.

(** The header test accepts the text ["Agent Name"] and nothing else. *)
Lemma py_eq_header (q : value) :
  py_eq q header_label = true <-> q = VStr "Agent Name".
Proof.
  unfold header_label; split.
  - destruct q; simpl; try discriminate.
    intros H; apply String.eqb_eq in H; now subst.
  - intros ->; reflexivity.
Qed.

Lemma strip_header_length (workbook : Workbook) :
  length (parse_queries_from_xlsx_file workbook)
  = first_column_count py_truthy workbook
    - (if starts_with_header workbook then 1 else 0).
Proof.
  unfold parse_queries_from_xlsx_file, starts_with_header.
  pose proof (collect_sheets_length workbook []) as Hlen; simpl in Hlen.
  rewrite <- Hlen.
  destruct (collect_sheets workbook []) as [| q rest]; simpl; [reflexivity |].
  destruct (py_eq q header_label) eqn:Hq.
  - apply py_eq_header in Hq; subst q; simpl; lia.
  - destruct q; simpl; try lia.
    destruct (String.eqb s "Agent Name") eqn:Hs; [| lia].
    apply String.eqb_eq in Hs; subst s; discriminate.
Qed.

(** What the extractor does with one row: the first value is appended
    exactly when it passes Python's truth test. *)
Lemma collect_rows_step (row : Row) (rest : list Row) (queries : list value) :
  collect_rows (row :: rest) queries
  = collect_rows rest
      (match row with
       | Some c :: _ =>
           if py_truthy (cell_value c) then queries ++ [cell_value c] else queries
       | _ => queries
       end).
Proof.
  destruct row as [| [c |] cells]; simpl; try reflexivity.
  destruct (py_truthy (cell_value c)); reflexivity.
Qed.

Lemma truthy_is_nonempty (v : value) :
  py_truthy v = true -> nonempty_by_spec v = true.
Proof.
  destruct v as [| s | | | | | |]; try reflexivity; [discriminate |].
  destruct s; [discriminate | reflexivity].
Qed.

Lemma first_cell_passes_agree (row : Row) :
  first_cell_passes false_but_nonempty row = false ->
  first_cell_passes py_truthy row = first_cell_passes nonempty_by_spec row.
Proof.
  destruct row as [| [c |] cells]; simpl; try reflexivity.
  unfold false_but_nonempty; intros Hno.
  pose proof (truthy_is_nonempty (cell_value c)) as Himp.
  destruct (py_truthy (cell_value c)).
  - now rewrite Himp.
  - destruct (nonempty_by_spec (cell_value c)); [discriminate | reflexivity].
Qed.

Lemma first_column_count_agree (workbook : Workbook) :
  free_of_false_values workbook = true ->
  first_column_count py_truthy workbook
  = first_column_count nonempty_by_spec workbook.
Proof.
  unfold free_of_false_values, first_column_count.
  induction (concat workbook) as [| row rows IH]; [reflexivity |].
  cbn [forallb filter]; intros Hfree.
  apply andb_true_iff in Hfree as [Hrow Hrows].
  apply negb_true_iff in Hrow.
  rewrite (first_cell_passes_agree row Hrow).
  destruct (first_cell_passes nonempty_by_spec row); cbn [length];
    now rewrite (IH Hrows).
Qed.

(** C1, as the code has it by design: at most [MAX_QUERIES] queries are
    retained, and, on a workbook where no first cell holds a value that is
    non-empty and yet false, their number is [min(100, N - h)], where [N]
    counts the non-empty first-column cells and [h] is 1 when the first
    collected value is exactly ["Agent Name"]: the header is removed before
    the cap applies. *)
Theorem retained_query_count (workbook : Workbook) :
  length (retained_queries workbook) <= MAX_QUERIES
  /\ (free_of_false_values workbook = true ->
      length (retained_queries workbook)
      = Nat.min MAX_QUERIES
          (first_column_count nonempty_by_spec workbook
           - (if starts_with_header workbook then 1 else 0))).
Proof.
  unfold retained_queries.
  rewrite length_firstn, strip_header_length.
  split; [apply Nat.le_min_l |].
  intros Hfree; now rewrite (first_column_count_agree workbook Hfree).
Qed.

Lemma retained_query_count_witness :
  free_of_false_values full_workbook = true
  /\ length (retained_queries full_workbook)
     = Nat.min MAX_QUERIES
         (first_column_count nonempty_by_spec full_workbook
          - (if starts_with_header full_workbook then 1 else 0)).
Proof.
  split; [reflexivity |].
  apply (proj2 (retained_query_count full_workbook)).
  reflexivity.
Defined.

(** C1, as the spec words it, fails on a workbook with the header and a
    hundred queries: all hundred are retained, the formula gives 99. *)
Lemma retained_query_count_by_spec_fails :
  starts_with_header full_workbook = true
  /\ first_column_count nonempty_by_spec full_workbook = 101
  /\ length (retained_queries full_workbook) = 100
  /\ length (retained_queries full_workbook) <> query_count_by_spec full_workbook.
Proof.
  repeat split; try (vm_compute; reflexivity).
  vm_compute; discriminate.
Qed.

(** C8: a first cell holding the number 0 is not null and not the empty
    string, yet the extractor leaves it out. *)
Theorem zero_cell_is_dropped :
  nonempty_by_spec (VInt 0) = true
  /\ first_cell_kept [Some {| cell_value := VInt 0 |}] = None
  /\ parse_queries_from_xlsx_file zero_workbook = [].
Proof.
  repeat split.
Qed.

(** ** Text handling *)

Lemma prefix_empty (s : string) : String.prefix "" s = true.
Proof. destruct s; reflexivity. Qed.

Lemma append_empty_r (s : string) : (s ++ "")%string = s.
Proof. induction s as [| c s IH]; simpl; [reflexivity | now rewrite IH]. Qed.

Lemma append_assoc (a b c : string) :
  ((a ++ b) ++ c)%string = (a ++ (b ++ c))%string.
Proof. induction a as [| x a IH]; simpl; [reflexivity | now rewrite IH]. Qed.

Lemma rev_string_acc (s : string) :
  forall acc, rev_string acc s = (rev_string "" s ++ acc)%string.
Proof.
  induction s as [| c s IH]; intros acc; simpl; [reflexivity |].
  rewrite (IH (String c acc)), (IH (String c "")), append_assoc.
  reflexivity.
Qed.

Lemma prefix_single (x c : ascii) (s : string) :
  String.prefix (String x "") (String c s) = Ascii.eqb c x.
Proof.
  change (String.prefix (String x "") (String c s))
    with (if ascii_dec x c then String.prefix "" s else false).
  destruct (ascii_dec x c) as [Heq | Hne].
  - subst c; now rewrite prefix_empty, Ascii.eqb_refl.
  - symmetry; apply Ascii.eqb_neq; congruence.
Qed.

Lemma replace_from_step (old new : string) (c : ascii) (s : string) :
  replace_from old new 0 (String c s)
  = if String.prefix old (String c s)
    then (new ++ replace_from old new (Nat.pred (String.length old)) s)%string
    else String c (replace_from old new 0 s).
Proof. reflexivity. Qed.

Lemma split_from_step (sep : string) (cur : string) (c : ascii) (s : string) :
  split_from sep 0 cur (String c s)
  = if String.prefix sep (String c s)
    then rev_string "" cur
         :: split_from sep (Nat.pred (String.length sep)) "" s
    else split_from sep 0 (String c cur) s.
Proof. reflexivity. Qed.








(** ** The result extractor *)

Section Extractor.

Context {D E : Type} `{WD : WebDriver D E}.






End Extractor.





(** ** One query: [parse_search_results] *)

Section OneQuery.

Context {D E : Type} `{WD : WebDriver D E}.

Lemma review_handler_returns (query : value) (e : exn) (w : World D) :
  fst (review_handler query e w) = Return tt
  /\ driver (snd (review_handler query e w)) = driver w
  /\ trace (snd (review_handler query e w)) = trace w
  /\ outfile (snd (review_handler query e w)) = outfile w.
Proof. destruct e; repeat split. Qed.

(** When the submission fails the dictionary holds the query and nothing
    else. *)
Lemma parse_search_results_failed
      (query : value) (w w1 : World D) (e : exn) :
  submit_and_read_url query w = (Raise e, w1) ->
  parse_search_results query w
  = (Return {| sr_query := query; sr_url := None;
               sr_star_score := None; sr_reviews_count := None |},
     snd (logger (LogException e) w1)).
Proof.
  intros Hsub.
  unfold parse_search_results.
  unfold bind at 1; unfold attempt at 1.
  rewrite Hsub; reflexivity.
Qed.

(** When the submission succeeds the two extraction steps run in turn, and
    each one that succeeds leaves its field behind. *)
Lemma parse_search_results_submitted
      (query : value) (w w1 : World D) (url : string) :
  submit_and_read_url query w = (Return url, w1) ->
  parse_search_results query w
  = match parse_star_score w1 with
    | (Raise e, w2) =>
        (Return {| sr_query := query; sr_url := Some url;
                   sr_star_score := None; sr_reviews_count := None |},
         snd (review_handler query e w2))
    | (Return score, w2) =>
        match parse_number_of_reviews w2 with
        | (Raise e, w3) =>
            (Return {| sr_query := query; sr_url := Some url;
                       sr_star_score := Some score; sr_reviews_count := None |},
             snd (review_handler query e w3))
        | (Return count, w3) =>
            (Return {| sr_query := query; sr_url := Some url;
                       sr_star_score := Some score;
                       sr_reviews_count := Some count |}, w3)
        end
    end.
Proof.
  intros Hsub.
  unfold parse_search_results.
  unfold bind at 1; unfold attempt at 1.
  rewrite Hsub.
  unfold bind at 1; unfold attempt at 1.
  destruct (parse_star_score w1) as [[score | e] w2].
  - unfold bind at 1; unfold attempt at 1.
    destruct (parse_number_of_reviews w2) as [[count | e] w3].
    + reflexivity.
    + destruct e; reflexivity.
  - destruct e; reflexivity.
Qed.

(** The call never raises, and the dictionary is filed under the query. *)
Lemma parse_search_results_returns (query : value) (w : World D) :
  exists sr w',
    parse_search_results query w = (Return sr, w') /\ sr_query sr = query.
Proof.
  destruct (submit_and_read_url query w) as [[url | e] w1] eqn:Hsub.
  - rewrite (parse_search_results_submitted query w w1 url Hsub).
    destruct (parse_star_score w1) as [[score | e] w2].
    + destruct (parse_number_of_reviews w2) as [[count | e] w3]; eauto.
    + eauto.
  - rewrite (parse_search_results_failed query w w1 e Hsub); eauto.
Qed.

Lemma parse_star_score_needs_element (w : World D) (score : string) :
  fst (parse_star_score w) = Return score ->
  element_found xpath_star_score (driver w).
Proof.
  unfold parse_star_score, bind, call, element_found.
  destruct (wd_find_element xpath_star_score (driver w)) as [[el | e] d1].
  - eauto.
  - discriminate.
Qed.

Lemma parse_number_of_reviews_needs_element (w : World D) (count : string) :
  fst (parse_number_of_reviews w) = Return count ->
  element_found xpath_reviews (driver w).
Proof.
  unfold parse_number_of_reviews, bind, call, element_found.
  destruct (wd_find_element xpath_reviews (driver w)) as [[el | e] d1].
  - eauto.
  - discriminate.
Qed.

Lemma parse_star_score_absent (w : World D) :
  element_absent xpath_star_score (driver w) ->
  fst (parse_star_score w) = Raise NoSuchElementException.
Proof.
  unfold parse_star_score, bind, call, element_absent.
  destruct (wd_find_element xpath_star_score (driver w)) as [[el | e] d1];
    simpl; intros Habsent; [discriminate | congruence].
Qed.

Lemma parse_number_of_reviews_absent (w : World D) :
  element_absent xpath_reviews (driver w) ->
  fst (parse_number_of_reviews w) = Raise NoSuchElementException.
Proof.
  unfold parse_number_of_reviews, bind, call, element_absent.
  destruct (wd_find_element xpath_reviews (driver w)) as [[el | e] d1];
    simpl; intros Habsent; [discriminate | congruence].
Qed.

Ltac contradict_absent :=
  match goal with
  | Himp : ?P -> Return _ = Raise _, Hp : ?P |- _ =>
      specialize (Himp Hp); discriminate
  end.

(** C2, as the code has it.  After a successful submission the call hands
    back a dictionary and raises nothing; [reviews_count] is set only if
    both elements are found and [star_score] only if the star-score element
    is; when the star-score element is absent both fields are absent; when
    the star score has been read and only the review-count element is
    absent, [reviews_count] is absent and [star_score] stays set. *)
Theorem review_fields_follow_elements
        (query : value) (w w1 : World D) (url : string) :
  submit_and_read_url query w = (Return url, w1) ->
  exists sr w',
    parse_search_results query w = (Return sr, w')
    /\ sr_query sr = query /\ sr_url sr = Some url
    /\ (sr_star_score sr <> None ->
        element_found xpath_star_score (driver w1))
    /\ (sr_reviews_count sr <> None ->
        sr_star_score sr <> None
        /\ element_found xpath_star_score (driver w1)
        /\ element_found xpath_reviews (driver (snd (parse_star_score w1))))
    /\ (element_absent xpath_star_score (driver w1) ->
        sr_star_score sr = None /\ sr_reviews_count sr = None)
    /\ (forall score,
          fst (parse_star_score w1) = Return score ->
          element_absent xpath_reviews (driver (snd (parse_star_score w1))) ->
          sr_star_score sr = Some score /\ sr_reviews_count sr = None).
Proof.
  intros Hsub.
  rewrite (parse_search_results_submitted query w w1 url Hsub).
  pose proof (parse_star_score_needs_element w1) as Hstar.
  pose proof (parse_star_score_absent w1) as Hnostar.
  destruct (parse_star_score w1) as [[score | e] w2]; simpl in *.
  - pose proof (parse_number_of_reviews_needs_element w2) as Hrev.
    pose proof (parse_number_of_reviews_absent w2) as Hnorev.
    destruct (parse_number_of_reviews w2) as [[count | e] w3]; simpl in *;
      eexists; eexists; (split; [reflexivity |]); simpl;
      repeat split; intros; eauto; try discriminate; try congruence;
      contradict_absent.
  - eexists; eexists; (split; [reflexivity |]); simpl;
      repeat split; intros; eauto; try discriminate; try congruence.
Qed.

End OneQuery.

Lemma review_fields_follow_elements_witness :
  exists sr,
    fst (@parse_search_results _ _ (ToyDriver demo_site) beta_query
           (toy_world toy_browser)) = Return sr
    /\ sr_star_score sr = Some "3.0" /\ sr_reviews_count sr = None.
Proof.
  destruct (@review_fields_follow_elements _ _ (ToyDriver demo_site)
              beta_query (toy_world toy_browser) beta_submitted
              "https://www.google.com/search" eq_refl)
    as (sr & w' & Hrun & _ & _ & _ & _ & _ & Hpartial).
  exists sr; rewrite Hrun; split; [reflexivity |].
  apply (Hpartial "3.0"); reflexivity.
Defined.

(** C2, as the spec words it, fails on a page that shows a star score and
    no review link: the submission succeeds, the review-count element is
    absent, and [star_score] is set all the same. *)
Lemma review_fields_both_or_none_fails :
  @submit_and_read_url _ _ (ToyDriver demo_site) beta_query (toy_world toy_browser)
  = (Return "https://www.google.com/search", beta_submitted)
  /\ element_absent (WD := ToyDriver demo_site) xpath_reviews
       (driver (snd (@parse_star_score _ _ (ToyDriver demo_site) beta_submitted)))
  /\ fst (@parse_search_results _ _ (ToyDriver demo_site) beta_query
            (toy_world toy_browser))
     = Return {| sr_query := beta_query;
                 sr_url := Some "https://www.google.com/search";
                 sr_star_score := Some "3.0";
                 sr_reviews_count := None |}
  /\ ~ (forall sr,
          fst (@parse_search_results _ _ (ToyDriver demo_site) beta_query
                 (toy_world toy_browser)) = Return sr ->
          sr_star_score sr = None /\ sr_reviews_count sr = None).
Proof.
  repeat split.
  intros Hclaim.
  destruct (Hclaim _ eq_refl) as [Hstar _].
  discriminate Hstar.
Qed.

(** ** Equality of dictionary keys *)

Lemma py_eq_refl (a : value) : py_eq a a = true.
Proof.
  destruct a; unfold py_eq; cbn [py_number];
    first [ reflexivity | apply Qeq_bool_refl
          | apply String.eqb_refl | apply Z.eqb_refl ].
Qed.

Lemma py_eq_sym (a b : value) : py_eq a b = py_eq b a.
Proof.
  destruct a, b; unfold py_eq; cbn [py_number];
    first [ reflexivity | apply Qeq_bool_comm
          | apply String.eqb_sym | apply Z.eqb_sym ].
Qed.

Lemma py_eq_trans (a b c : value) :
  py_eq a b = true -> py_eq b c = true -> py_eq a c = true.
Proof.
  destruct a, b, c; unfold py_eq; cbn [py_number]; intros Hab Hbc;
    try discriminate; try reflexivity;
    try (eapply Qeq_bool_trans; eassumption).
  - apply String.eqb_eq in Hab, Hbc; subst; apply String.eqb_refl.
  - apply Z.eqb_eq in Hab, Hbc; subst; apply Z.eqb_refl.
  - apply Z.eqb_eq in Hab, Hbc; subst; apply Z.eqb_refl.
  - apply Z.eqb_eq in Hab, Hbc; subst; apply Z.eqb_refl.
Qed.

(** Two equal keys are told apart by no third key. *)
Lemma py_eq_same_key (k a b : value) :
  py_eq a b = true -> py_eq k a = py_eq k b.
Proof.
  intros Hab.
  destruct (py_eq k a) eqn:Hka, (py_eq k b) eqn:Hkb; try reflexivity.
  - rewrite (py_eq_trans k a b Hka Hab) in Hkb; discriminate.
  - rewrite py_eq_sym in Hab.
    rewrite (py_eq_trans k b a Hkb Hab) in Hka; discriminate.
Qed.

(** For text, equality of keys is equality of the text. *)
Lemma py_eq_text (a : value) (s : string) :
  py_eq a (VStr s) = true -> a = VStr s.
Proof.
  destruct a; simpl; try discriminate.
  intros H; apply String.eqb_eq in H; now subst.
Qed.

(** ** The cache *)

Lemma cache_get_same_key (seen : Cache) (a b : value) :
  py_eq a b = true -> cache_get seen a = cache_get seen b.
Proof.
  intros Hab.
  induction seen as [| [k sr] rest IH]; simpl; [reflexivity |].
  rewrite (py_eq_same_key k a b Hab), IH; reflexivity.
Qed.

Lemma cache_set_new (seen : Cache) (query : value) (sr : SearchResult) :
  cache_get seen query = None -> cache_set seen query sr = seen ++ [(query, sr)].
Proof.
  induction seen as [| [k old] rest IH]; simpl; [reflexivity |].
  destruct (py_eq k query); [discriminate |].
  intros Hmiss; now rewrite IH.
Qed.

Lemma cache_get_app (seen : Cache) (query k : value) (sr : SearchResult) :
  cache_get (seen ++ [(query, sr)]) k
  = match cache_get seen k with
    | Some x => Some x
    | None => if py_eq query k then Some sr else None
    end.
Proof.
  induction seen as [| [k' old] rest IH]; simpl; [reflexivity |].
  destruct (py_eq k' k); [reflexivity | exact IH].
Qed.

Lemma cache_ok_empty : cache_ok [].
Proof. intros k sr Hget; discriminate. Qed.

Lemma cache_ok_set (seen : Cache) (query : value) (sr : SearchResult) :
  cache_ok seen -> cache_get seen query = None -> sr_query sr = query ->
  cache_ok (cache_set seen query sr).
Proof.
  intros Hok Hmiss Hquery k x.
  rewrite (cache_set_new seen query sr Hmiss), cache_get_app.
  destruct (cache_get seen k) as [y |] eqn:Hk.
  - intros Hx; injection Hx as <-; now apply Hok.
  - destruct (py_eq query k) eqn:Hqk; [| discriminate].
    intros Hx; injection Hx as <-; now rewrite Hquery.
Qed.

(** ** What a computation leaves alone *)

Section Frames.

Context {D E : Type} `{WD : WebDriver D E}.

Lemma keeps_file_ret {A} (a : A) : keeps_file (ret (D := D) a).
Proof. intros w; reflexivity. Qed.

Lemma keeps_file_raise {A} (e : exn) : keeps_file (raise (D := D) (A := A) e).
Proof. intros w; reflexivity. Qed.

Lemma keeps_file_logger (r : log_record) : keeps_file (logger (D := D) r).
Proof. intros w; reflexivity. Qed.

Lemma keeps_file_sleep (lo hi : Q) : keeps_file (sleep_uniform (D := D) lo hi).
Proof. intros w; reflexivity. Qed.

Lemma keeps_file_call {A} (e : event) (op : D -> result A * D) :
  keeps_file (call e op).
Proof. intros w; unfold call; destruct (op (driver w)); reflexivity. Qed.

Lemma keeps_file_bind {A B} (m : M D A) (k : A -> M D B) :
  keeps_file m -> (forall a, keeps_file (k a)) -> keeps_file (bind m k).
Proof.
  intros Hm Hk w; unfold bind.
  specialize (Hm w).
  destruct (m w) as [[a | e] w1]; simpl in *.
  - rewrite Hk; exact Hm.
  - exact Hm.
Qed.

Lemma keeps_file_attempt {A} (m : M D A) :
  keeps_file m -> keeps_file (attempt m).
Proof.
  intros Hm w; unfold attempt.
  specialize (Hm w); destruct (m w); exact Hm.
Qed.

Create HintDb frames.

Hint Resolve keeps_file_ret keeps_file_raise keeps_file_logger
     keeps_file_sleep keeps_file_call keeps_file_attempt : frames.

Ltac frame := repeat (apply keeps_file_bind; [| intros ?]); auto with frames.

Lemma keeps_file_search (query : value) :
  keeps_file (search_query_on_google query).
Proof. unfold search_query_on_google; frame. Qed.

Lemma keeps_file_submit (query : value) :
  keeps_file (submit_and_read_url query).
Proof. unfold submit_and_read_url; frame; apply keeps_file_search. Qed.

Lemma keeps_file_star : keeps_file parse_star_score.
Proof. unfold parse_star_score; frame. Qed.

Lemma keeps_file_reviews : keeps_file parse_number_of_reviews.
Proof.
  unfold parse_number_of_reviews; frame.
  destruct (py_split " " _); auto with frames.
Qed.

Lemma keeps_file_handler (query : value) (e : exn) :
  keeps_file (review_handler (D := D) query e).
Proof. destruct e; intros w; reflexivity. Qed.

Lemma keeps_file_parse (query : value) :
  keeps_file (parse_search_results query).
Proof.
  unfold parse_search_results.
  apply keeps_file_bind;
    [apply keeps_file_attempt, keeps_file_submit | intros [url | e]].
  - apply keeps_file_bind;
      [apply keeps_file_attempt, keeps_file_star | intros [score | e]].
    + apply keeps_file_bind;
        [apply keeps_file_attempt, keeps_file_reviews | intros [count | e]].
      * apply keeps_file_ret.
      * apply keeps_file_bind; [apply keeps_file_handler | intros ?].
        apply keeps_file_ret.
    + apply keeps_file_bind; [apply keeps_file_handler | intros ?].
      apply keeps_file_ret.
  - frame.
Qed.

(** A failed submission is a failed first [try]. *)
Lemma submit_fails (query : value) (w : World D) (e : exn) :
  fst (search_query_on_google query w) = Raise e ->
  exists w1, submit_and_read_url query w = (Raise e, w1).
Proof.
  unfold submit_and_read_url, bind.
  destruct (search_query_on_google query w) as [[[] | e'] w1]; simpl.
  - discriminate.
  - intros H; injection H as ->; eauto.
Qed.

End Frames.

(** ** Reading the report back *)

Lemma read_start_step (c : ascii) (s : string) (row : list string) :
  read_from AtFieldStart "" row (String c s)
  = if Ascii.eqb c "034"%char then read_from InQuoted "" row s
    else if Ascii.eqb c ";"%char
         then read_from AtFieldStart "" (end_field "" row) s
    else if Ascii.eqb c "013"%char
         then end_row_at_start row :: read_from AfterCR "" [] s
    else if Ascii.eqb c "010"%char
         then end_row_at_start row :: read_from AtFieldStart "" [] s
    else read_from InPlain (String c "") row s.
Proof. reflexivity. Qed.

Lemma read_plain_step (c : ascii) (s field : string) (row : list string) :
  read_from InPlain field row (String c s)
  = if Ascii.eqb c ";"%char
    then read_from AtFieldStart "" (end_field field row) s
    else if Ascii.eqb c "013"%char
         then end_row field row :: read_from AfterCR "" [] s
    else if Ascii.eqb c "010"%char
         then end_row field row :: read_from AtFieldStart "" [] s
    else read_from InPlain (String c field) row s.
Proof. reflexivity. Qed.

Lemma read_quoted_step (c : ascii) (s field : string) (row : list string) :
  read_from InQuoted field row (String c s)
  = if Ascii.eqb c "034"%char then read_from AfterQuote field row s
    else read_from InQuoted (String c field) row s.
Proof. reflexivity. Qed.

Lemma read_after_quote_step (c : ascii) (s field : string) (row : list string) :
  read_from AfterQuote field row (String c s)
  = if Ascii.eqb c "034"%char then read_from InQuoted (String c field) row s
    else if Ascii.eqb c ";"%char
         then read_from AtFieldStart "" (end_field field row) s
    else if Ascii.eqb c "013"%char
         then end_row field row :: read_from AfterCR "" [] s
    else if Ascii.eqb c "010"%char
         then end_row field row :: read_from AtFieldStart "" [] s
    else read_from InPlain (String c field) row s.
Proof. reflexivity. Qed.

Lemma read_after_cr_lf (s : string) :
  read_from AfterCR "" [] (String "010" s) = read_from AtFieldStart "" [] s.
Proof. reflexivity. Qed.

Lemma csv_special_false (c : ascii) :
  csv_special c = false ->
  Ascii.eqb c ";" = false /\ Ascii.eqb c "034" = false
  /\ Ascii.eqb c "013" = false /\ Ascii.eqb c "010" = false.
Proof.
  unfold csv_special; intros H.
  repeat (apply orb_false_iff in H as [H ?]); auto.
Qed.

Lemma rev_string_involutive (s : string) :
  forall acc,
    rev_string "" (rev_string acc s) = (rev_string "" acc ++ s)%string.
Proof.
  induction s as [| c s IH]; intros acc; cbn [rev_string].
  - now rewrite append_empty_r.
  - rewrite IH; cbn [rev_string].
    rewrite (rev_string_acc acc (String c "")), append_assoc; reflexivity.
Qed.

Lemma end_field_rev (text : string) (row : list string) :
  end_field (rev_string "" text) row = text :: row.
Proof. unfold end_field; now rewrite rev_string_involutive. Qed.

(** Characters that need no quoting are read as they are. *)
Lemma read_plain_text (text : string) :
  has_char csv_special text = false ->
  forall field row rest,
    read_from InPlain field row (text ++ rest)
    = read_from InPlain (rev_string field text) row rest.
Proof.
  induction text as [| c s IH]; intros Hplain field row rest; [reflexivity |].
  cbn [has_char] in Hplain; apply orb_false_iff in Hplain as [Hc Hs].
  destruct (csv_special_false c Hc) as (Hsemi & _ & Hcr & Hlf).
  cbn [append rev_string].
  rewrite read_plain_step, Hsemi, Hcr, Hlf.
  now apply IH.
Qed.

(** Inside quotes every character is read as it is, a doubled quote as one
    quote. *)
Lemma read_quoted_text (text : string) :
  forall field row rest,
    read_from InQuoted field row
      (py_replace dquote (dquote ++ dquote) text ++ rest)
    = read_from InQuoted (rev_string field text) row rest.
Proof.
  unfold py_replace, dquote; cbn [append].
  induction text as [| c s IH]; intros field row rest; [reflexivity |].
  rewrite replace_from_step, prefix_single.
  destruct (Ascii.eqb c "034") eqn:Hc.
  - apply Ascii.eqb_eq in Hc; subst c.
    cbn [append String.length Nat.pred rev_string].
    rewrite read_quoted_step, Ascii.eqb_refl.
    rewrite read_after_quote_step, Ascii.eqb_refl.
    apply IH.
  - cbn [append rev_string].
    rewrite read_quoted_step, Hc.
    apply IH.
Qed.

(** What is left to read when a written field has been read: the reader is
    after the closing quote of a quoted field, inside a plain one, or still
    at the start of an empty one. *)
Lemma read_written_field (text : string) (row : list string) (rest : string) :
  read_from AtFieldStart "" row (csv_field text ++ rest)
  = if has_char csv_special text
    then read_from AfterQuote (rev_string "" text) row rest
    else match text with
         | EmptyString => read_from AtFieldStart "" row rest
         | _ => read_from InPlain (rev_string "" text) row rest
         end.
Proof.
  unfold csv_field.
  destruct (has_char csv_special text) eqn:Hspecial.
  - set (body := py_replace dquote (dquote ++ dquote) text).
    change ((dquote ++ body ++ dquote) ++ rest)%string
      with (String "034" ((body ++ String "034" "") ++ rest))%string.
    rewrite read_start_step, Ascii.eqb_refl, append_assoc.
    unfold body; rewrite read_quoted_text.
    cbn [append]; rewrite read_quoted_step, Ascii.eqb_refl.
    reflexivity.
  - destruct text as [| c s]; [reflexivity |].
    cbn [has_char] in Hspecial; apply orb_false_iff in Hspecial as [Hc Hs].
    destruct (csv_special_false c Hc) as (Hsemi & Hquote & Hcr & Hlf).
    cbn [append]; rewrite read_start_step, Hquote, Hsemi, Hcr, Hlf.
    now rewrite read_plain_text.
Qed.

Lemma read_field_then_delimiter
      (text : string) (row : list string) (rest : string) :
  read_from AtFieldStart "" row (csv_field text ++ String ";" rest)
  = read_from AtFieldStart "" (text :: row) rest.
Proof.
  rewrite read_written_field.
  destruct (has_char csv_special text).
  - rewrite read_after_quote_step; cbn [Ascii.eqb Bool.eqb].
    now rewrite end_field_rev.
  - destruct text as [| c s].
    + rewrite read_start_step; reflexivity.
    + rewrite read_plain_step; cbn [Ascii.eqb Bool.eqb].
      now rewrite end_field_rev.
Qed.

Lemma read_field_then_line_break
      (text : string) (row : list string) (rest : string) :
  row <> [] \/ text <> "" ->
  read_from AtFieldStart "" row (csv_field text ++ CRLF ++ rest)
  = rev (text :: row) :: read_from AtFieldStart "" [] rest.
Proof.
  intros Hsome.
  rewrite read_written_field.
  unfold CRLF; cbn [append].
  destruct (has_char csv_special text).
  - rewrite read_after_quote_step; cbn [Ascii.eqb Bool.eqb].
    rewrite read_after_cr_lf; unfold end_row.
    now rewrite end_field_rev.
  - destruct text as [| c s].
    + rewrite read_start_step; cbn [Ascii.eqb Bool.eqb].
      rewrite read_after_cr_lf.
      destruct row as [| f more]; [destruct Hsome; congruence |].
      reflexivity.
    + rewrite read_plain_step; cbn [Ascii.eqb Bool.eqb].
      rewrite read_after_cr_lf; unfold end_row.
      now rewrite end_field_rev.
Qed.

Lemma read_joined_fields (fields : list string) :
  forall row rest,
    fields <> [] ->
    row <> [] \/ fields <> [""] ->
    read_from AtFieldStart "" row
      (join ";" (map csv_field fields) ++ CRLF ++ rest)
    = (rev row ++ fields) :: read_from AtFieldStart "" [] rest.
Proof.
  induction fields as [| f more IH]; intros row rest Hfields Hsome;
    [congruence |].
  destruct more as [| g more].
  - cbn [map join].
    rewrite read_field_then_line_break.
    + reflexivity.
    + destruct Hsome as [Hrow | Hf]; [now left | right; congruence].
  - change (join ";" (map csv_field (f :: g :: more)))
      with (csv_field f ++ ";" ++ join ";" (map csv_field (g :: more)))%string.
    rewrite append_assoc; cbn [append].
    rewrite read_field_then_delimiter.
    rewrite IH by (try discriminate; now left).
    cbn [rev]; now rewrite <- app_assoc.
Qed.

(** A row that was written is the row that is read. *)
Lemma read_written_row (fields : list string) (rest : string) :
  read_from AtFieldStart "" [] (csv_line fields ++ rest)
  = fields :: read_from AtFieldStart "" [] rest.
Proof.
  destruct fields as [| f more].
  - reflexivity.
  - destruct more as [| g more]; [destruct f as [| c s] |].
    + reflexivity.
    + change (csv_line [String c s])
        with (join ";" (map csv_field [String c s]) ++ CRLF)%string.
      rewrite append_assoc, read_joined_fields;
        [reflexivity | discriminate | right; discriminate].
    + assert (Hline : csv_line (f :: g :: more)
                      = (join ";" (map csv_field (f :: g :: more)) ++ CRLF)%string)
        by (destruct f; reflexivity).
      rewrite Hline, append_assoc, read_joined_fields;
        [reflexivity | discriminate | right; discriminate].
Qed.

(** A report that was written is the report that is read, row by row. *)
Lemma read_written_rows (rows : list (list string)) :
  read_report (concat_text (map csv_line rows)) = rows.
Proof.
  unfold read_report.
  induction rows as [| fields more IH]; [reflexivity |].
  cbn [map concat_text fold_right].
  change (fold_right append "" (map csv_line more))
    with (concat_text (map csv_line more)).
  now rewrite read_written_row, IH.
Qed.

(** ** The loop over the queries *)

Section Run.

Context {D E : Type} `{WD : WebDriver D E} `{PT : PyText}.

(** A dictionary that holds nothing but the query. *)
Lemma row_text_query_only (query : value) :
  row_text {| sr_query := query; sr_url := None;
              sr_star_score := None; sr_reviews_count := None |}
  = csv_line [csv_text query; ""; ""; ""].
Proof. reflexivity. Qed.

(** A query that is in the cache: its dictionary is logged and written, and
    neither the browser nor the clock is touched. *)
Lemma process_query_hit
      (query : value) (seen : Cache) (sr : SearchResult) (w : World D) :
  cache_get seen query = Some sr ->
  process_query query seen w
  = (Return seen,
     {| driver := driver w; trace := trace w;
        log := log w ++ [LogCached sr];
        outfile := (outfile w ++ row_text sr)%string |}).
Proof.
  intros Hhit; unfold process_query; rewrite Hhit; reflexivity.
Qed.

(** A query that is not: it is paced, searched, cached and written. *)
Lemma process_query_miss (query : value) (seen : Cache) (w : World D) :
  cache_get seen query = None ->
  exists sr w1,
    parse_search_results query (snd (sleep_uniform 3 5 w)) = (Return sr, w1)
    /\ sr_query sr = query
    /\ outfile w1 = outfile w
    /\ process_query query seen w
       = (Return (cache_set seen query sr),
          {| driver := driver w1; trace := trace w1;
             log := log w1 ++ [LogParsed sr];
             outfile := (outfile w1 ++ row_text sr)%string |}).
Proof.
  intros Hmiss.
  destruct (parse_search_results_returns query (snd (sleep_uniform 3 5 w)))
    as (sr & w1 & Hparse & Hquery).
  exists sr, w1; repeat split; try assumption.
  - pose proof (keeps_file_parse query (snd (sleep_uniform 3 5 w))) as Hfile.
    rewrite Hparse in Hfile; exact Hfile.
  - unfold process_query; rewrite Hmiss.
    unfold bind at 1; simpl.
    unfold bind at 1.
    change (parse_search_results query
              {| driver := driver w; trace := trace w ++ [Sleep 3 5];
                 log := log w; outfile := outfile w |})
      with (parse_search_results query (snd (sleep_uniform 3 5 w))).
    rewrite Hparse; reflexivity.
Qed.

(** One turn of the loop, whichever way it goes. *)
Lemma process_query_spec (query : value) (seen : Cache) (w : World D) :
  cache_ok seen ->
  exists sr seen' w',
    process_query query seen w = (Return seen', w')
    /\ outfile w' = (outfile w ++ row_text sr)%string
    /\ cache_get seen' query = Some sr
    /\ row_of_query query sr
    /\ cache_ok seen'
    /\ (forall k x, cache_get seen k = Some x -> cache_get seen' k = Some x).
Proof.
  intros Hok.
  destruct (cache_get seen query) as [sr |] eqn:Hget.
  - exists sr, seen; eexists.
    split; [apply (process_query_hit query seen sr w Hget) |].
    repeat split; auto.
    apply (Hok query sr Hget).
  - destruct (process_query_miss query seen w Hget)
      as (sr & w1 & Hparse & Hquery & Hfile & Hrun).
    exists sr, (cache_set seen query sr); eexists.
    split; [exact Hrun |].
    assert (Hnew : cache_get (cache_set seen query sr) query = Some sr).
    { rewrite (cache_set_new seen query sr Hget), cache_get_app, Hget.
      now rewrite py_eq_refl. }
    repeat split; simpl.
    + now rewrite Hfile.
    + exact Hnew.
    + unfold row_of_query; rewrite Hquery; apply py_eq_refl.
    + now apply cache_ok_set.
    + intros k x Hk.
      rewrite (cache_set_new seen query sr Hget), cache_get_app, Hk.
      reflexivity.
Qed.

Lemma process_queries_app (first rest : list value) :
  forall seen w,
    process_queries (first ++ rest) seen w
    = match process_queries first seen w with
      | (Return seen', w') => process_queries rest seen' w'
      | (Raise e, w') => (Raise e, w')
      end.
Proof.
  induction first as [| query more IH]; intros seen w; simpl; [reflexivity |].
  unfold bind.
  destruct (process_query query seen w) as [[seen1 | e] w1]; [apply IH | reflexivity].
Qed.

(** The loop runs to its end and writes the rows of its queries, one after
    the other. *)
Lemma process_queries_spec (queries : list value) :
  forall seen w,
    cache_ok seen ->
    exists srs seen' w',
      process_queries queries seen w = (Return seen', w')
      /\ outfile w' = (outfile w ++ concat_text (map row_text srs))%string
      /\ Forall2 row_of_query queries srs
      /\ cache_ok seen'
      /\ (forall k x, cache_get seen k = Some x -> cache_get seen' k = Some x).
Proof.
  induction queries as [| query rest IH]; intros seen w Hok.
  - exists [], seen, w; simpl.
    rewrite append_empty_r; repeat split; auto.
  - destruct (process_query_spec query seen w Hok)
      as (sr & seen1 & w1 & Hstep & Hfile1 & _ & Hrow & Hok1 & Hmono1).
    destruct (IH seen1 w1 Hok1)
      as (srs & seen2 & w2 & Hrun & Hfile2 & Hrows & Hok2 & Hmono2).
    exists (sr :: srs), seen2, w2; simpl.
    unfold bind; rewrite Hstep, Hrun.
    repeat split; auto.
    rewrite Hfile2, Hfile1, append_assoc; reflexivity.
Qed.

(** The text of a row is the CSV line of the four fields of its
    dictionary. *)
Lemma row_text_fields (sr : SearchResult) :
  row_text sr = csv_line (record_fields sr).
Proof.
  destruct sr as [q [url |] [star |] [reviews |]]; reflexivity.
Qed.

Lemma rows_text_fields (srs : list SearchResult) :
  concat_text (map row_text srs)
  = concat_text (map csv_line (map record_fields srs)).
Proof.
  rewrite map_map; f_equal.
  apply map_ext; intros sr; apply row_text_fields.
Qed.

Lemma rows_read_back (srs : list SearchResult) :
  read_report (concat_text (map row_text srs)) = map record_fields srs.
Proof. rewrite rows_text_fields; apply read_written_rows. Qed.

Lemma row_text_ends_line (sr : SearchResult) :
  exists body, row_text sr = (body ++ CRLF)%string.
Proof.
  rewrite row_text_fields; unfold record_fields.
  destruct (csv_text (sr_query sr)); eexists; reflexivity.
Qed.

Lemma text_query_field (query : value) (sr : SearchResult) :
  row_of_query query sr ->
  forall s, query = VStr s -> hd "" (record_fields sr) = s.
Proof.
  unfold row_of_query; intros Hrow s ->.
  apply py_eq_text in Hrow.
  unfold record_fields; cbn [hd]; now rewrite Hrow.
Qed.

(** The bytes of the row of a dictionary that holds nothing but a plain
    text. *)
Lemma bare_row_bytes (s : string) :
  has_char csv_special s = false ->
  csv_line [s; ""; ""; ""] = (s ++ ";;;" ++ CRLF)%string.
Proof.
  intros Hplain.
  assert (Hline : csv_line [s; ""; ""; ""]
                  = (join ";" (map csv_field [s; ""; ""; ""]) ++ CRLF)%string)
    by (destruct s; reflexivity).
  rewrite Hline; cbn [map join].
  unfold csv_field at 1; rewrite Hplain.
  now rewrite append_assoc.
Qed.

(** C3: the loop writes exactly one row per query of its input, duplicates
    included, and the rows come in the order of the queries.  Read back,
    what the loop appended to the report is one record of four fields per
    query, the i-th record being that of the i-th query, with the text of
    the query in its first field; every row ends with a line break. *)
Theorem one_row_per_query (queries : list value) (w : World D) :
  exists srs seen w',
    process_queries queries [] w = (Return seen, w')
    /\ outfile w' = (outfile w ++ concat_text (map row_text srs))%string
    /\ read_report (concat_text (map row_text srs)) = map record_fields srs
    /\ length (read_report (concat_text (map row_text srs))) = length queries
    /\ length srs = length queries
    /\ Forall2 row_of_query queries srs
    /\ Forall2 (fun query sr =>
                  forall s, query = VStr s ->
                            sr_query sr = VStr s
                            /\ hd "" (record_fields sr) = s)
         queries srs
    /\ Forall (fun sr => exists body, row_text sr = (body ++ CRLF)%string) srs.
Proof.
  destruct (process_queries_spec queries [] w cache_ok_empty)
    as (srs & seen & w' & Hrun & Hfile & Hrows & _ & _).
  assert (Hlen : length srs = length queries)
    by (symmetry; eapply Forall2_length; eassumption).
  exists srs, seen, w'; repeat split; auto.
  - apply rows_read_back.
  - now rewrite rows_read_back, length_map.
  - eapply Forall2_impl; [| exact Hrows].
    intros query sr Hrow s Hs; split.
    + subst query; apply py_eq_text; exact Hrow.
    + now apply (text_query_field query sr Hrow).
  - apply Forall_forall; intros sr _; apply row_text_ends_line.
Qed.

(** C4: when a query comes again later in the input, the later occurrence
    appends the very bytes the earlier one appended, which read back as the
    one record of that query, and it leaves the browser and the trace of
    browser calls and pauses as they were: nothing is submitted and nothing
    is waited for. *)
Theorem duplicate_reuses_row
        (before : list value) (first : value) (between : list value)
        (again : value) (w : World D) :
  py_eq first again = true ->
  exists line sr seen1 w1 seen2 w2 seen3 w3 w4,
    process_queries before [] w = (Return seen1, w1)
    /\ process_queries (before ++ [first]) [] w = (Return seen2, w2)
    /\ outfile w2 = (outfile w1 ++ line)%string
    /\ process_queries (before ++ first :: between) [] w = (Return seen3, w3)
    /\ process_queries ((before ++ first :: between) ++ [again]) [] w
       = (Return seen3, w4)
    /\ outfile w4 = (outfile w3 ++ line)%string
    /\ driver w4 = driver w3
    /\ trace w4 = trace w3
    /\ read_report line = [record_fields sr]
    /\ row_of_query first sr
    /\ row_of_query again sr
    /\ (forall s, again = VStr s -> hd "" (record_fields sr) = s)
    /\ (exists body, line = (body ++ CRLF)%string).
Proof.
  intros Hsame.
  destruct (process_queries_spec before [] w cache_ok_empty)
    as (srs1 & seen1 & w1 & Hrun1 & _ & _ & Hok1 & _).
  destruct (process_query_spec first seen1 w1 Hok1)
    as (sr & seen2 & w2 & Hstep & Hfile2 & Hget2 & Hrow & Hok2 & _).
  destruct (process_queries_spec between seen2 w2 Hok2)
    as (srs3 & seen3 & w3 & Hrun3 & _ & _ & _ & Hmono3).
  assert (Hhit : cache_get seen3 again = Some sr).
  { rewrite <- (cache_get_same_key seen3 first again Hsame); auto. }
  assert (Hrow' : row_of_query again sr).
  { unfold row_of_query in *.
    eapply py_eq_trans; [exact Hrow | exact Hsame]. }
  exists (row_text sr), sr, seen1, w1, seen2, w2, seen3, w3.
  eexists.
  split; [exact Hrun1 |].
  split.
  { rewrite process_queries_app, Hrun1; simpl.
    unfold bind; rewrite Hstep; reflexivity. }
  split; [exact Hfile2 |].
  assert (Hrun : process_queries (before ++ first :: between) [] w
                 = (Return seen3, w3)).
  { rewrite process_queries_app, Hrun1; simpl.
    unfold bind; rewrite Hstep; exact Hrun3. }
  split; [exact Hrun |].
  split.
  { rewrite process_queries_app, Hrun; simpl.
    unfold bind; rewrite (process_query_hit again seen3 sr w3 Hhit).
    reflexivity. }
  repeat split; auto.
  - pose proof (rows_read_back [sr]) as Hread.
    cbn [map concat_text fold_right] in Hread.
    now rewrite append_empty_r in Hread.
  - now apply text_query_field.
  - apply row_text_ends_line.
Qed.

(** C5: when the submission of a query raises, the loop appends the row that
    holds the query followed by three empty fields (for a plain text the
    bytes are the text, [;;;] and a line break), and goes on to write one
    row for every query that comes after it: the run is not aborted. *)
Theorem failed_submission_row
        (before : list value) (query : value) (after : list value)
        (w w1 : World D) (seen1 : Cache) (e : exn) :
  process_queries before [] w = (Return seen1, w1) ->
  cache_get seen1 query = None ->
  fst (search_query_on_google query (snd (sleep_uniform 3 5 w1))) = Raise e ->
  exists line seen2 w2 seen3 w3 srs,
    process_queries (before ++ [query]) [] w = (Return seen2, w2)
    /\ outfile w2 = (outfile w1 ++ line)%string
    /\ read_report line = [[csv_text query; ""; ""; ""]]
    /\ (forall s, query = VStr s -> read_report line = [[s; ""; ""; ""]])
    /\ (forall s, query = VStr s -> has_char csv_special s = false ->
                  line = (s ++ ";;;" ++ CRLF)%string)
    /\ cache_get seen2 query
       = Some {| sr_query := query; sr_url := None;
                 sr_star_score := None; sr_reviews_count := None |}
    /\ process_queries (before ++ query :: after) [] w = (Return seen3, w3)
    /\ outfile w3 = (outfile w2 ++ concat_text (map row_text srs))%string
    /\ read_report (concat_text (map row_text srs)) = map record_fields srs
    /\ length srs = length after
    /\ Forall2 row_of_query after srs.
Proof.
  intros Hrun1 Hmiss Hraise.
  destruct (process_queries_spec before [] w cache_ok_empty)
    as (srs1 & seen1' & w1' & Hrun1' & _ & _ & Hok1 & _).
  rewrite Hrun1 in Hrun1'; injection Hrun1' as <- <-.
  destruct (submit_fails query _ e Hraise) as [wf Hsubmit].
  pose proof (parse_search_results_failed query _ wf e Hsubmit) as Hparse.
  destruct (process_query_miss query seen1 w1 Hmiss)
    as (sr & wp & Hparse' & Hquery & Hfile & Hstep).
  rewrite Hparse in Hparse'; injection Hparse' as <- <-.
  set (bare := {| sr_query := query; sr_url := None;
                  sr_star_score := None; sr_reviews_count := None |}) in *.
  assert (Hok2 : cache_ok (cache_set seen1 query bare))
    by (apply cache_ok_set; auto).
  assert (Hread : read_report (csv_line [csv_text query; ""; ""; ""])
                  = [[csv_text query; ""; ""; ""]]).
  { pose proof (read_written_rows [[csv_text query; ""; ""; ""]]) as Hone.
    cbn [map concat_text fold_right] in Hone.
    now rewrite append_empty_r in Hone. }
  exists (csv_line [csv_text query; ""; ""; ""]).
  match type of Hstep with
  | _ = (_, ?w2) =>
      destruct (process_queries_spec after (cache_set seen1 query bare) w2 Hok2)
        as (srs & seen3 & w3 & Hrun3 & Hfile3 & Hrows & _ & _);
      exists (cache_set seen1 query bare), w2, seen3, w3, srs
  end.
  split.
  { rewrite process_queries_app, Hrun1; simpl.
    unfold bind; rewrite Hstep; reflexivity. }
  split.
  { cbn [outfile snd logger] in Hfile |- *.
    rewrite Hfile; apply f_equal, row_text_query_only. }
  split; [exact Hread |].
  split; [intros s ->; exact Hread |].
  split; [intros s -> Hplain; now apply bare_row_bytes |].
  split.
  { rewrite (cache_set_new seen1 query bare Hmiss), cache_get_app, Hmiss.
    now rewrite py_eq_refl. }
  split.
  { rewrite process_queries_app, Hrun1; simpl.
    unfold bind; rewrite Hstep; exact Hrun3. }
  split; [exact Hfile3 |].
  split; [apply rows_read_back |].
  split; [symmetry; eapply Forall2_length; eassumption | exact Hrows].
Qed.

(** C10: with an existing input file, a browser session, a workbook that
    yields no query, an output file that opens and a first page that loads,
    [main] ends with status 0,
    the report holds the header row and nothing else, and the browser has
    only been sent to the first page: nothing was submitted. *)
Theorem empty_query_list_report
        (host : Host) (d d' : D) (workbook : Workbook) :
  input_is_file host = true ->
  new_webdriver host = Return d ->
  loaded_workbook host = Return workbook ->
  retained_queries workbook = [] ->
  opened_report host = Return tt ->
  wd_get google_home d = (Return tt, d') ->
  main host
  = {| exit_status := 0;
       report := Some ("query;star_score;reviews_count;url" ++ CRLF)%string;
       browser_trace := [Navigate google_home];
       log_file := [LogParsedCount 0] |}.
Proof.
  intros Hfile Hdriver Hbook Hempty Hopen Hget.
  unfold main; rewrite Hfile, Hdriver, Hbook, Hopen; cbn [negb].
  change (firstn MAX_QUERIES (parse_queries_from_xlsx_file workbook))
    with (retained_queries workbook).
  rewrite Hempty.
  unfold write_report, writeheader, bind, call, file_write; simpl.
  rewrite Hget; reflexivity.
Qed.

(** When that first page does not load the run is fatal all the same. *)
Lemma home_page_failure_is_fatal
      (host : Host) (d d' : D) (workbook : Workbook) (e : exn) :
  input_is_file host = true ->
  new_webdriver host = Return d ->
  loaded_workbook host = Return workbook ->
  opened_report host = Return tt ->
  wd_get google_home d = (Raise e, d') ->
  exit_status (main host) = 1.
Proof.
  intros Hfile Hdriver Hbook Hopen Hget.
  unfold main; rewrite Hfile, Hdriver, Hbook, Hopen; simpl.
  unfold write_report, writeheader, bind, call, file_write; simpl.
  rewrite Hget; reflexivity.
Qed.

End Run.

(** ** The script on the scripted browser *)

Lemma duplicate_reuses_row_witness :
  exists line sr seen1 w1 seen2 w2 seen3 w3 w4,
    @process_queries _ _ (ToyDriver demo_site) ToyText [] [] (toy_world toy_browser)
    = (Return seen1, w1)
    /\ @process_queries _ _ (ToyDriver demo_site) ToyText
         ([] ++ [acme_query]) [] (toy_world toy_browser)
       = (Return seen2, w2)
    /\ outfile w2 = (outfile w1 ++ line)%string
    /\ @process_queries _ _ (ToyDriver demo_site) ToyText
         ([] ++ acme_query :: [beta_query]) [] (toy_world toy_browser)
       = (Return seen3, w3)
    /\ @process_queries _ _ (ToyDriver demo_site) ToyText
         (([] ++ acme_query :: [beta_query]) ++ [acme_query]) []
         (toy_world toy_browser)
       = (Return seen3, w4)
    /\ outfile w4 = (outfile w3 ++ line)%string
    /\ driver w4 = driver w3
    /\ trace w4 = trace w3
    /\ read_report line = [@record_fields ToyText sr]
    /\ row_of_query acme_query sr
    /\ row_of_query acme_query sr
    /\ (forall s, acme_query = VStr s -> hd "" (@record_fields ToyText sr) = s)
    /\ (exists body, line = (body ++ CRLF)%string).
Proof.
  apply (@duplicate_reuses_row _ _ (ToyDriver demo_site) ToyText
           [] acme_query [beta_query] acme_query (toy_world toy_browser)).
  reflexivity.
Defined.

Lemma failed_submission_row_witness :
  exists line seen2 w2 seen3 w3 srs,
    @process_queries _ _ (ToyDriver demo_site) ToyText
      ([] ++ [down_query]) [] (toy_world toy_browser)
    = (Return seen2, w2)
    /\ outfile w2 = (outfile (toy_world toy_browser) ++ line)%string
    /\ read_report line = [["down"; ""; ""; ""]]
    /\ line = ("down;;;" ++ CRLF)%string
    /\ cache_get seen2 down_query
       = Some {| sr_query := down_query; sr_url := None;
                 sr_star_score := None; sr_reviews_count := None |}
    /\ @process_queries _ _ (ToyDriver demo_site) ToyText
         ([] ++ down_query :: [acme_query]) [] (toy_world toy_browser)
       = (Return seen3, w3)
    /\ outfile w3 = (outfile w2 ++ concat_text (map (@row_text ToyText) srs))%string
    /\ read_report (concat_text (map (@row_text ToyText) srs))
       = map (@record_fields ToyText) srs
    /\ length srs = length [acme_query]
    /\ Forall2 row_of_query [acme_query] srs.
Proof.
  destruct (@failed_submission_row _ _ (ToyDriver demo_site) ToyText
              [] down_query [acme_query]
              (toy_world toy_browser) (toy_world toy_browser) []
              (OtherException "WebDriverException")
              eq_refl eq_refl eq_refl)
    as (line & seen2 & w2 & seen3 & w3 & srs & Hrun2 & Hfile2 & Hread & _
        & Hbytes & Hcache & Hrun3 & Hfile3 & Hread3 & Hlen & Hrows).
  exists line, seen2, w2, seen3, w3, srs.
  repeat split; try assumption.
  apply (Hbytes "down"); reflexivity.
Defined.

Lemma empty_query_list_report_witness :
  retained_queries header_only_workbook = []
  /\ @main _ _ (ToyDriver demo_site) ToyText (demo_host header_only_workbook)
     = {| exit_status := 0;
          report := Some ("query;star_score;reviews_count;url" ++ CRLF)%string;
          browser_trace := [Navigate google_home];
          log_file := [LogParsedCount 0] |}.
Proof.
  split; [reflexivity |].
  apply (@empty_query_list_report _ _ (ToyDriver demo_site) ToyText
           (demo_host header_only_workbook) toy_browser toy_browser
           header_only_workbook);
    reflexivity.
Defined.

(** The scenario of the spec: the header, ["Acme Corp"] twice around an
    empty cell, then ["Beta LLC"].  Three rows are written, the first two
    are the same, and ["Acme Corp"] is submitted once. *)
Example scenario_report :
  retained_queries scenario_workbook = [acme_query; acme_query; beta_query]
  /\ report (@main _ _ (ToyDriver demo_site) ToyText (demo_host scenario_workbook))
     = Some ("query;star_score;reviews_count;url" ++ CRLF
             ++ "Acme Corp;4.5;1,234;https://www.google.com/search" ++ CRLF
             ++ "Acme Corp;4.5;1,234;https://www.google.com/search" ++ CRLF
             ++ "Beta LLC;3.0;;https://www.google.com/search" ++ CRLF)%string
  /\ length (filter (fun ev => match ev with
                               | SendKeys (VStr "Acme Corp") => true
                               | _ => false
                               end)
               (browser_trace
                  (@main _ _ (ToyDriver demo_site) ToyText
                     (demo_host scenario_workbook)))) = 1.
Proof. repeat split. Qed.

(** * Further properties of the script *)

(** ** More on the query extractor *)

Lemma collect_rows_acc (rows : list Row) :
  forall queries, collect_rows rows queries = queries ++ kept_values rows.
Proof.
  unfold kept_values.
  induction rows as [| row rest IH]; intros queries; simpl.
  - now rewrite app_nil_r.
  - destruct (first_cell_kept row) as [v |]; rewrite IH; simpl.
    + now rewrite <- app_assoc.
    + reflexivity.
Qed.

Lemma kept_values_app (rows1 rows2 : list Row) :
  kept_values (rows1 ++ rows2) = kept_values rows1 ++ kept_values rows2.
Proof. unfold kept_values; apply flat_map_app. Qed.

Lemma collect_sheets_acc (workbook : Workbook) :
  forall queries,
    collect_sheets workbook queries = queries ++ kept_values (concat workbook).
Proof.
  induction workbook as [| sheet rest IH]; intros queries; simpl.
  - now rewrite app_nil_r.
  - rewrite IH, collect_rows_acc, kept_values_app, app_assoc; reflexivity.
Qed.

Lemma kept_values_truthy (rows : list Row) :
  Forall (fun q => py_truthy q = true) (kept_values rows).
Proof.
  unfold kept_values.
  induction rows as [| row rest IH]; simpl; [constructor |].
  destruct row as [| [c |] cells]; simpl; try exact IH.
  destruct (py_truthy (cell_value c)) eqn:Hc; simpl; [| exact IH].
  constructor; assumption.
Qed.

Lemma strip_header_incl (queries : list value) (q : value) :
  In q (strip_header queries) -> In q queries.
Proof.
  destruct queries as [| q0 rest]; simpl; [tauto |].
  destruct (py_eq q0 header_label); simpl; tauto.
Qed.

Lemma In_firstn {A} (n : nat) (l : list A) (x : A) :
  In x (firstn n l) -> In x l.
Proof.
  revert l; induction n as [| n IH]; intros [| y l]; simpl; try tauto.
  intros [-> | Hin]; auto.
Qed.


(** X2: no query handed to the scraper is [None], the empty text or a number
    equal to zero: each one passes Python's truth test. *)
Theorem queries_are_truthy (workbook : Workbook) :
  Forall (fun q => py_truthy q = true /\ q <> VNone /\ q <> VStr ""
                   /\ q <> VInt 0 /\ q <> VBool false)
    (retained_queries workbook).
Proof.
  apply Forall_forall; intros q Hin.
  assert (Htruthy : py_truthy q = true).
  { unfold retained_queries, parse_queries_from_xlsx_file in Hin.
    apply In_firstn, strip_header_incl in Hin.
    rewrite collect_sheets_acc in Hin; simpl in Hin.
    pose proof (kept_values_truthy (concat workbook)) as Hall.
    rewrite Forall_forall in Hall; auto. }
  repeat split; try assumption; intros ->; discriminate.
Qed.

Lemma first_cell_kept_firstn (row : Row) :
  first_cell_kept (firstn 1 row) = first_cell_kept row.
Proof. destruct row as [| [c |] cells]; reflexivity. Qed.

Lemma kept_values_first_column (rows : list Row) :
  kept_values (map (firstn 1) rows) = kept_values rows.
Proof.
  unfold kept_values.
  induction rows as [| row rest IH]; [reflexivity |].
  cbn [map flat_map].
  now rewrite first_cell_kept_firstn, IH.
Qed.

Lemma concat_first_column (workbook : Workbook) :
  kept_values (concat (first_column_only workbook))
  = kept_values (concat workbook).
Proof.
  unfold first_column_only.
  induction workbook as [| sheet rest IH]; [reflexivity |].
  cbn [map concat].
  now rewrite !kept_values_app, kept_values_first_column, IH.
Qed.

(** X3: columns beyond the first are never read: cutting every row down to its
    first cell changes nothing in the queries. *)
Theorem other_columns_ignored (workbook : Workbook) :
  parse_queries_from_xlsx_file (first_column_only workbook)
  = parse_queries_from_xlsx_file workbook.
Proof.
  unfold parse_queries_from_xlsx_file.
  now rewrite !collect_sheets_acc, concat_first_column.
Qed.

(** X4: the header is removed once for the whole workbook, not once per sheet:
    as soon as the first sheets yield a value, everything the later sheets
    yield is kept, a repeated ["Agent Name"] included. *)
Theorem header_removed_once (sheets later : Workbook) :
  collect_sheets sheets [] <> [] ->
  parse_queries_from_xlsx_file (sheets ++ later)
  = parse_queries_from_xlsx_file sheets ++ collect_sheets later [].
Proof.
  unfold parse_queries_from_xlsx_file.
  rewrite !collect_sheets_acc, concat_app, kept_values_app; simpl.
  destruct (kept_values (concat sheets)) as [| q rest]; [congruence |].
  intros _; simpl.
  destruct (py_eq q header_label); reflexivity.
Qed.

Lemma header_removed_once_witness :
  parse_queries_from_xlsx_file ([headed_sheet] ++ [headed_sheet])
  = parse_queries_from_xlsx_file [headed_sheet] ++ collect_sheets [headed_sheet] [].
Proof.
  apply (header_removed_once [headed_sheet] [headed_sheet]).
  vm_compute; discriminate.
Defined.

(** ** More on the text handling *)

Lemma has_char_app (p : ascii -> bool) (a b : string) :
  has_char p (a ++ b)%string = has_char p a || has_char p b.
Proof.
  induction a as [| c a IH]; simpl; [reflexivity |].
  now rewrite IH, orb_assoc.
Qed.

Lemma split_from_not_nil (sep : string) (s : string) :
  forall skip cur, split_from sep skip cur s <> [].
Proof.
  induction s as [| c s IH]; intros skip cur; [discriminate |].
  destruct skip as [| k]; [| apply IH].
  rewrite split_from_step.
  destruct (String.prefix sep (String c s)); [discriminate | apply IH].
Qed.

Lemma join_cons (sep piece : string) (pieces : list string) :
  pieces <> [] ->
  join sep (piece :: pieces) = (piece ++ sep ++ join sep pieces)%string.
Proof. destruct pieces; [congruence | reflexivity]. Qed.

Lemma split_from_space_join (s : string) :
  forall cur,
    join " " (split_from " " 0 cur s) = (rev_string "" cur ++ s)%string.
Proof.
  induction s as [| c s IH]; intros cur.
  - cbn; now rewrite append_empty_r.
  - rewrite split_from_step, prefix_single.
    destruct (Ascii.eqb c " ") eqn:Hc.
    + apply Ascii.eqb_eq in Hc; subst c.
      rewrite join_cons by apply split_from_not_nil.
      now rewrite IH.
    + rewrite IH; cbn [rev_string].
      rewrite (rev_string_acc cur (String c "")), append_assoc.
      reflexivity.
Qed.

Lemma split_from_space_pieces (s : string) :
  forall cur,
    has_char is_space (rev_string "" cur) = false ->
    Forall (fun piece => has_char is_space piece = false)
      (split_from " " 0 cur s).
Proof.
  induction s as [| c s IH]; intros cur Hcur.
  - repeat constructor; exact Hcur.
  - rewrite split_from_step, prefix_single.
    destruct (Ascii.eqb c " ") eqn:Hc.
    + constructor; [exact Hcur | apply IH; reflexivity].
    + apply IH; cbn [rev_string].
      rewrite (rev_string_acc cur (String c "")), has_char_app, Hcur.
      simpl; unfold is_space; now rewrite Hc.
Qed.

(** X5: [split(' ')] loses nothing: its pieces contain no space, and joined
    again with a space they give back the text. *)
Theorem split_on_space_round_trip (text : string) :
  join " " (py_split " " text) = text
  /\ Forall (fun piece => has_char is_space piece = false) (py_split " " text).
Proof.
  unfold py_split; split.
  - apply split_from_space_join.
  - apply split_from_space_pieces; reflexivity.
Qed.

Lemma drop_last_cons (c : ascii) (s : string) :
  s <> "" -> drop_last (String c s) = String c (drop_last s).
Proof. destruct s; [congruence | reflexivity]. Qed.

Lemma drop_last_app_single (s : string) (c : ascii) :
  drop_last (s ++ String c "")%string = s.
Proof.
  induction s as [| x s IH]; [reflexivity |].
  cbn [append].
  rewrite drop_last_cons by (destruct s; discriminate).
  now rewrite IH.
Qed.

Lemma prefix_cons (a b : ascii) (s1 s2 : string) :
  String.prefix (String a s1) (String b s2)
  = Ascii.eqb b a && String.prefix s1 s2.
Proof.
  change (String.prefix (String a s1) (String b s2))
    with (if ascii_dec a b then String.prefix s1 s2 else false).
  destruct (ascii_dec a b) as [Heq | Hne].
  - subst b; now rewrite Ascii.eqb_refl.
  - assert (Hb : Ascii.eqb b a = false) by (apply Ascii.eqb_neq; congruence).
    now rewrite Hb.
Qed.

(** Doubling the quotes and then halving them gives back the text. *)
Lemma undouble_double (s : string) :
  py_replace (dquote ++ dquote) dquote (py_replace dquote (dquote ++ dquote) s)
  = s.
Proof.
  unfold py_replace, dquote; cbn [append].
  induction s as [| c s IH]; [reflexivity |].
  rewrite replace_from_step, prefix_single.
  destruct (Ascii.eqb c "034") eqn:Hc.
  - apply Ascii.eqb_eq in Hc; subst c.
    cbn [append String.length Nat.pred].
    rewrite replace_from_step, !prefix_cons, prefix_empty.
    rewrite Ascii.eqb_refl.
    cbn [andb append String.length Nat.pred replace_from].
    now rewrite IH.
  - rewrite replace_from_step, prefix_cons, Hc.
    cbn [andb]; now rewrite IH.
Qed.

(** X6: the quoting of the report is lossless: whatever text a field holds, a
    reader that strips the outer quotes and halves the doubled ones gets
    that text back. *)
Theorem csv_field_round_trip (text : string) :
  unquote_field (csv_field text) = text.
Proof.
  unfold csv_field.
  destruct (has_char csv_special text) eqn:Hspecial.
  - set (body := py_replace dquote (dquote ++ dquote) text).
    change (unquote_field (String "034" (body ++ String "034" "")) = text).
    cbn [unquote_field].
    rewrite Ascii.eqb_refl, drop_last_app_single.
    apply undouble_double.
  - destruct text as [| c rest]; [reflexivity |].
    unfold unquote_field.
    simpl in Hspecial.
    apply orb_false_iff in Hspecial as [Hc _].
    unfold csv_special in Hc.
    repeat (apply orb_false_iff in Hc as [Hc ?]).
    destruct (Ascii.eqb c "034"); [discriminate | reflexivity].
Qed.

(** ** More on one query *)

Section OneQueryMore.

Context {D E : Type} `{WD : WebDriver D E}.

(** Two outcomes of one driver call are the same outcome. *)
Ltac same_calls :=
  intros;
  repeat match goal with
         | H : (_, _) = (_, _) |- _ => inversion H; subst; clear H
         | Heq : ?op = (_, _), H : ?op = (_, _) |- _ =>
             rewrite Heq in H; inversion H; subst; clear H
         end;
  repeat match goal with
         | Heq : ?op = (_, _) |- context [?op] => rewrite Heq
         end;
  cbn [fst snd]; auto.

(** X7: the submission makes its calls in the order of the script and stops
    at the first one that raises, with the exception of that call: the
    trace grows by the calls made so far, the form is submitted only once
    the field has been found, cleared and filled with the query, the outcome
    is then that of the submit call, and neither the log nor the report is
    touched. *)
Theorem search_follows_script (query : value) (w : World D) :
  exists n,
    trace (snd (search_query_on_google query w))
    = trace w ++ firstn n (search_script query)
    /\ log (snd (search_query_on_google query w)) = log w
    /\ outfile (snd (search_query_on_google query w)) = outfile w
    /\ (fst (search_query_on_google query w) = Return tt -> n = 5)
    /\ (forall e d1,
          wd_find_element xpath_search_field (driver w) = (Raise e, d1) ->
          n = 1 /\ search_query_on_google query w
                   = (Raise e, snd (search_query_on_google query w))
          /\ driver (snd (search_query_on_google query w)) = d1)
    /\ (forall el d1,
          wd_find_element xpath_search_field (driver w) = (Return el, d1) ->
          (forall e d2,
             el_clear el d1 = (Raise e, d2) ->
             n = 2 /\ fst (search_query_on_google query w) = Raise e
             /\ driver (snd (search_query_on_google query w)) = d2)
          /\ (forall u d2,
                el_clear el d1 = (Return u, d2) ->
                (forall e d3,
                   el_send_keys el query d2 = (Raise e, d3) ->
                   n = 3 /\ fst (search_query_on_google query w) = Raise e
                   /\ driver (snd (search_query_on_google query w)) = d3)
                /\ (forall u' d3,
                      el_send_keys el query d2 = (Return u', d3) ->
                      n = 5
                      /\ fst (search_query_on_google query w)
                         = fst (el_submit el d3)
                      /\ driver (snd (search_query_on_google query w))
                         = snd (el_submit el d3)))).
Proof.
  unfold search_query_on_google, search_script, bind, call,
    sleep_uniform, record_event.
  destruct (wd_find_element xpath_search_field (driver w))
    as [[el | e] d1] eqn:Hfind;
    cbn [driver trace log outfile fst snd].
  - destruct (el_clear el d1) as [[[] | e] d2] eqn:Hclear;
      cbn [driver trace log outfile fst snd].
    + destruct (el_send_keys el query d2) as [[[] | e] d3] eqn:Hsend;
        cbn [driver trace log outfile fst snd].
      * exists 5.
        destruct (el_submit el d3) as [[[] | e] d4] eqn:Hsubmit;
          cbn [driver trace log outfile fst snd];
          rewrite <- !app_assoc; cbn [app firstn];
          repeat split; auto; same_calls.
      * exists 3; rewrite <- !app_assoc; cbn [app firstn].
        repeat split; auto; try discriminate; same_calls.
    + exists 2; rewrite <- !app_assoc; cbn [app firstn].
      repeat split; auto; try discriminate; same_calls.
  - exists 1; cbn [app firstn].
    repeat split; auto; try discriminate; same_calls.
Qed.

(** X8: the fields of a dictionary nest: a review count comes with a star
    score, a star score comes with a URL, and the URL is missing exactly
    when the submission raised. *)
Theorem record_fields_nest (query : value) (w : World D) :
  exists sr w',
    parse_search_results query w = (Return sr, w')
    /\ sr_query sr = query
    /\ (sr_reviews_count sr <> None -> sr_star_score sr <> None)
    /\ (sr_star_score sr <> None -> sr_url sr <> None)
    /\ (sr_url sr = None <->
        exists e, fst (submit_and_read_url query w) = Raise e).
Proof.
  destruct (submit_and_read_url query w) as [[url | e] w1] eqn:Hsub.
  - rewrite (parse_search_results_submitted query w w1 url Hsub).
    destruct (parse_star_score w1) as [[score | e] w2];
      [destruct (parse_number_of_reviews w2) as [[count | e] w3] |];
      eexists; eexists; (split; [reflexivity |]); simpl;
      repeat split; try congruence;
      try (intros [e' He']; discriminate).
  - rewrite (parse_search_results_failed query w w1 e Hsub).
    eexists; eexists; (split; [reflexivity |]); simpl;
      repeat split; try congruence; eauto.
Qed.

Lemma keeps_log_ret {A} (a : A) : keeps_log (ret (D := D) a).
Proof. intros w; reflexivity. Qed.

Lemma keeps_log_raise {A} (e : exn) : keeps_log (raise (D := D) (A := A) e).
Proof. intros w; reflexivity. Qed.

Lemma keeps_log_sleep (lo hi : Q) : keeps_log (sleep_uniform (D := D) lo hi).
Proof. intros w; reflexivity. Qed.

Lemma keeps_log_call {A} (e : event) (op : D -> result A * D) :
  keeps_log (call e op).
Proof. intros w; unfold call; destruct (op (driver w)); reflexivity. Qed.

Lemma keeps_log_bind {A B} (m : M D A) (k : A -> M D B) :
  keeps_log m -> (forall a, keeps_log (k a)) -> keeps_log (bind m k).
Proof.
  intros Hm Hk w; unfold bind.
  specialize (Hm w).
  destruct (m w) as [[a | e] w1]; simpl in *.
  - rewrite Hk; exact Hm.
  - exact Hm.
Qed.

Ltac quiet :=
  repeat (apply keeps_log_bind; [| intros ?]);
  auto using keeps_log_ret, keeps_log_raise, keeps_log_sleep, keeps_log_call.

Lemma keeps_log_submit (query : value) :
  keeps_log (submit_and_read_url query).
Proof. unfold submit_and_read_url, search_query_on_google; quiet. Qed.

Lemma keeps_log_star : keeps_log parse_star_score.
Proof. unfold parse_star_score; quiet. Qed.

Lemma keeps_log_reviews : keeps_log parse_number_of_reviews.
Proof.
  unfold parse_number_of_reviews; quiet.
  destruct (py_split " " _); auto using keeps_log_ret, keeps_log_raise.
Qed.

Lemma review_handler_log (query : value) (e : exn) (w : World D) :
  exists r,
    log (snd (review_handler query e w)) = log w ++ [r]
    /\ ((exists e', r = LogException e') \/ r = LogNoReviewElements query)
    /\ (e = NoSuchElementException -> r = LogNoReviewElements query).
Proof.
  destruct e; eexists; (split; [reflexivity |]); split; eauto.
  discriminate.
Qed.

(** X9: a complete dictionary leaves no trace in the log; a dictionary without
    a review count leaves exactly one record, which is the exception when
    the submission failed. *)
Theorem degraded_row_is_logged_once (query : value) (w : World D) :
  exists sr w',
    parse_search_results query w = (Return sr, w')
    /\ (sr_reviews_count sr <> None -> log w' = log w)
    /\ (sr_reviews_count sr = None ->
        exists r,
          log w' = log w ++ [r]
          /\ ((exists e, r = LogException e) \/ r = LogNoReviewElements query))
    /\ (sr_url sr = None -> exists e, log w' = log w ++ [LogException e]).
Proof.
  pose proof (keeps_log_submit query w) as Hlog1.
  destruct (submit_and_read_url query w) as [[url | e] w1] eqn:Hsub;
    simpl in Hlog1.
  - rewrite (parse_search_results_submitted query w w1 url Hsub).
    pose proof (keeps_log_star w1) as Hlog2.
    destruct (parse_star_score w1) as [[score | e] w2]; simpl in Hlog2.
    + pose proof (keeps_log_reviews w2) as Hlog3.
      destruct (parse_number_of_reviews w2) as [[count | e] w3];
        simpl in Hlog3.
      * eexists; eexists; (split; [reflexivity |]); simpl.
        repeat split; try congruence.
      * destruct (review_handler_log query e w3) as (r & Hr & Hkind & _).
        eexists; eexists; (split; [reflexivity |]); simpl.
        repeat split; try congruence.
        intros _; exists r; split; [congruence | exact Hkind].
    + destruct (review_handler_log query e w2) as (r & Hr & Hkind & _).
      eexists; eexists; (split; [reflexivity |]); simpl.
      repeat split; try congruence.
      intros _; exists r; split; [congruence | exact Hkind].
  - rewrite (parse_search_results_failed query w w1 e Hsub).
    eexists; eexists; (split; [reflexivity |]); simpl.
    repeat split; try congruence.
    + intros _; exists (LogException e); rewrite Hlog1; eauto.
    + intros _; exists e; now rewrite Hlog1.
Qed.

(** X10: a missing element is not reported as an error: when the submission
    succeeds and the star-score element is absent, the one record logged is
    the debug note that no review elements were found. *)
Theorem missing_element_is_a_debug_note
        (query : value) (w w1 : World D) (url : string) :
  submit_and_read_url query w = (Return url, w1) ->
  element_absent xpath_star_score (driver w1) ->
  exists sr w',
    parse_search_results query w = (Return sr, w')
    /\ log w' = log w ++ [LogNoReviewElements query]
    /\ sr_url sr = Some url
    /\ sr_star_score sr = None /\ sr_reviews_count sr = None.
Proof.
  intros Hsub Habsent.
  rewrite (parse_search_results_submitted query w w1 url Hsub).
  pose proof (keeps_log_submit query w) as Hlog1.
  rewrite Hsub in Hlog1; simpl in Hlog1.
  pose proof (keeps_log_star w1) as Hlog2.
  pose proof (parse_star_score_absent w1 Habsent) as Hraise.
  destruct (parse_star_score w1) as [[score | e] w2]; simpl in *;
    [discriminate |].
  injection Hraise as ->.
  eexists; eexists; (split; [reflexivity |]); simpl.
  repeat split; congruence.
Qed.

End OneQueryMore.

Lemma missing_element_is_a_debug_note_witness :
  exists sr w',
    @parse_search_results _ _
      (ToyDriver {| site_blocked := fun _ => false;
                    site_page := fun _ => {| page_star := None;
                                             page_reviews := None |} |})
      acme_query (toy_world toy_browser) = (Return sr, w')
    /\ log w' = log (toy_world toy_browser) ++ [LogNoReviewElements acme_query]
    /\ sr_url sr = Some "https://www.google.com/search"
    /\ sr_star_score sr = None /\ sr_reviews_count sr = None.
Proof.
  eapply (@missing_element_is_a_debug_note _ _
            (ToyDriver {| site_blocked := fun _ => false;
                          site_page := fun _ => {| page_star := None;
                                                   page_reviews := None |} |})
            acme_query (toy_world toy_browser)).
  - reflexivity.
  - reflexivity.
Defined.

(** ** More on the cache *)

(** X11: storing under a key and looking a key up: the stored dictionary is found
    under every key equal to the one it was stored under, whether that key
    was new or not, and the other keys find what they found before. *)
Theorem cache_set_then_get
        (seen : Cache) (query k : value) (sr : SearchResult) :
  cache_get (cache_set seen query sr) k
  = if py_eq query k then Some sr else cache_get seen k.
Proof.
  induction seen as [| [k0 old] rest IH]; simpl.
  - destruct (py_eq query k); reflexivity.
  - destruct (py_eq k0 query) eqn:H0; simpl.
    + rewrite (py_eq_sym k0 k), (py_eq_same_key k k0 query H0),
        (py_eq_sym k query).
      destruct (py_eq query k); reflexivity.
    + destruct (py_eq k0 k) eqn:H1; [| exact IH].
      destruct (py_eq query k) eqn:H2; [| reflexivity].
      rewrite py_eq_sym in H2.
      rewrite (py_eq_trans k0 k query H1 H2) in H0; discriminate.
Qed.

Lemma known_key_get (seen : Cache) (query : value) :
  known_key (map fst seen) query
  = match cache_get seen query with
    | Some _ => true
    | None => false
    end.
Proof.
  unfold known_key.
  induction seen as [| [k sr] rest IH]; simpl; [reflexivity |].
  destruct (py_eq k query); simpl; [reflexivity | exact IH].
Qed.

Lemma known_key_app (keys more : list value) (query : value) :
  known_key (keys ++ more) query = known_key keys query || known_key more query.
Proof. unfold known_key; apply existsb_app. Qed.

Lemma first_occurrences_length (queries : list value) :
  forall keys, length (first_occurrences queries keys) <= length queries.
Proof.
  induction queries as [| q rest IH]; intros keys; simpl; [lia |].
  destruct (known_key keys q); simpl.
  - specialize (IH keys); lia.
  - specialize (IH (keys ++ [q])); lia.
Qed.

Lemma first_occurrences_cover (queries : list value) :
  forall keys q,
    In q queries ->
    known_key (keys ++ first_occurrences queries keys) q = true.
Proof.
  induction queries as [| q0 rest IH]; intros keys q Hin; [destruct Hin |].
  simpl.
  destruct (known_key keys q0) eqn:Hknown.
  - destruct Hin as [-> | Hin]; [| now apply IH].
    rewrite known_key_app, Hknown; reflexivity.
  - destruct Hin as [-> | Hin].
    + rewrite known_key_app; simpl.
      unfold known_key at 2; simpl.
      rewrite py_eq_refl; simpl.
      apply orb_true_r.
    + specialize (IH (keys ++ [q0]) q Hin).
      rewrite <- app_assoc in IH; exact IH.
Qed.

(** ** Counting what a computation adds to the trace *)

Section Traces.

Context {D E : Type} `{WD : WebDriver D E}.

Lemma count_events_app (p : event -> bool) (a b : list event) :
  count_events p (a ++ b) = count_events p a + count_events p b.
Proof. unfold count_events; now rewrite filter_app, length_app. Qed.

Lemma adds_ret {A} (p : event -> bool) (a : A) :
  adds_at_most p 0 (ret (D := D) a).
Proof. intros w; exists []; simpl; now rewrite app_nil_r. Qed.

Lemma adds_raise {A} (p : event -> bool) (e : exn) :
  adds_at_most p 0 (raise (D := D) (A := A) e).
Proof. intros w; exists []; simpl; now rewrite app_nil_r. Qed.

Lemma adds_logger (p : event -> bool) (r : log_record) :
  adds_at_most p 0 (logger (D := D) r).
Proof. intros w; exists []; simpl; now rewrite app_nil_r. Qed.

Lemma adds_call {A} (p : event -> bool) (e : event) (op : D -> result A * D) :
  adds_at_most p (if p e then 1 else 0) (call e op).
Proof.
  intros w; exists [e]; unfold call, count_events.
  destruct (op (driver w)); simpl; destruct (p e); auto.
Qed.

Lemma adds_sleep (p : event -> bool) (lo hi : Q) :
  adds_at_most p (if p (Sleep lo hi) then 1 else 0)
    (sleep_uniform (D := D) lo hi).
Proof.
  intros w; exists [Sleep lo hi]; unfold count_events; simpl.
  destruct (p (Sleep lo hi)); auto.
Qed.

Lemma adds_bind {A B} (p : event -> bool) (n k : nat)
      (m : M D A) (f : A -> M D B) :
  adds_at_most p n m -> (forall a, adds_at_most p k (f a)) ->
  adds_at_most p (n + k) (bind m f).
Proof.
  intros Hm Hf w; unfold bind.
  destruct (Hm w) as (tr1 & Htr1 & Hn).
  destruct (m w) as [[a | e] w1]; simpl in Htr1.
  - destruct (Hf a w1) as (tr2 & Htr2 & Hk).
    exists (tr1 ++ tr2); rewrite Htr2, Htr1, app_assoc, count_events_app.
    split; [reflexivity | lia].
  - exists tr1; simpl; split; [exact Htr1 | lia].
Qed.

Lemma adds_attempt {A} (p : event -> bool) (n : nat) (m : M D A) :
  adds_at_most p n m -> adds_at_most p n (attempt m).
Proof.
  intros Hm w; unfold attempt.
  destruct (Hm w) as (tr & Htr & Hn).
  destruct (m w); exists tr; auto.
Qed.

Lemma adds_weaken {A} (p : event -> bool) (n n' : nat) (m : M D A) :
  adds_at_most p n m -> n <= n' -> adds_at_most p n' m.
Proof.
  intros Hm Hle w; destruct (Hm w) as (tr & Htr & Hn).
  exists tr; split; [exact Htr | lia].
Qed.

Ltac tally :=
  repeat (eapply adds_bind; [| intros ?]);
  eauto using adds_ret, adds_raise, adds_logger, adds_call, adds_sleep.

Lemma adds_submit_pause (query : value) :
  adds_at_most is_pause 0 (submit_and_read_url query).
Proof.
  eapply adds_weaken;
    [unfold submit_and_read_url, search_query_on_google; tally |].
  vm_compute; lia.
Qed.

Lemma adds_submit_submit (query : value) :
  adds_at_most is_submit 1 (submit_and_read_url query).
Proof.
  eapply adds_weaken;
    [unfold submit_and_read_url, search_query_on_google; tally |].
  vm_compute; lia.
Qed.

Lemma adds_star (p : event -> bool) :
  (forall xpath, p (FindElement xpath) = false) -> p ReadText = false ->
  adds_at_most p 0 parse_star_score.
Proof.
  intros Hfind Hread.
  eapply adds_weaken; [unfold parse_star_score; tally |].
  rewrite Hfind, Hread; lia.
Qed.

Lemma adds_reviews (p : event -> bool) :
  (forall xpath, p (FindElement xpath) = false) -> p ReadText = false ->
  adds_at_most p 0 parse_number_of_reviews.
Proof.
  intros Hfind Hread.
  eapply adds_weaken.
  - unfold parse_number_of_reviews.
    eapply adds_bind; [apply adds_call | intros el].
    eapply adds_bind; [apply adds_call | intros text].
    destruct (py_split " " text); [apply adds_raise | apply adds_ret].
  - rewrite Hfind, Hread; lia.
Qed.

Lemma adds_handler (p : event -> bool) (query : value) (e : exn) :
  adds_at_most p 0 (review_handler (D := D) query e).
Proof. destruct e; apply adds_logger. Qed.

(** Whatever one search adds to the trace beyond the submission itself
    passes no test the element lookups and the reading of texts fail. *)
Lemma adds_parse (p : event -> bool) (n : nat) (query : value) :
  (forall xpath, p (FindElement xpath) = false) -> p ReadText = false ->
  adds_at_most p n (submit_and_read_url query) ->
  adds_at_most p n (parse_search_results query).
Proof.
  intros Hfind Hread Hsubmit.
  unfold parse_search_results.
  eapply adds_weaken with (n := n + 0); [| lia].
  apply adds_bind; [apply adds_attempt, Hsubmit | intros [url | e]].
  - apply (adds_bind p 0 0);
      [apply adds_attempt, adds_star; assumption | intros [score | e]].
    + apply (adds_bind p 0 0);
        [apply adds_attempt, adds_reviews; assumption | intros [count | e]].
      * apply adds_ret.
      * apply (adds_bind p 0 0); [apply adds_handler | intros ?; apply adds_ret].
    + apply (adds_bind p 0 0); [apply adds_handler | intros ?; apply adds_ret].
  - apply (adds_bind p 0 0); [apply adds_logger | intros ?; apply adds_ret].
Qed.

End Traces.

(** ** More on the loop and on [main] *)

Section RunMore.

Context {D E : Type} `{WD : WebDriver D E} `{PT : PyText}.

Lemma parse_trace (query : value) (w : World D) :
  exists tr,
    trace (snd (parse_search_results query w)) = trace w ++ tr
    /\ count_events is_pause tr = 0
    /\ count_events is_submit tr <= 1.
Proof.
  destruct (adds_parse is_pause 0 query (fun _ => eq_refl) eq_refl
              (adds_submit_pause query) w) as (tr & Htr & Hpause).
  destruct (adds_parse is_submit 1 query (fun _ => eq_refl) eq_refl
              (adds_submit_submit query) w) as (tr' & Htr' & Hsubmit).
  rewrite Htr in Htr'; apply app_inv_head in Htr'; subst tr'.
  exists tr; repeat split; auto; lia.
Qed.

(** One turn of the loop, seen from the trace. *)
Lemma process_query_trace (query : value) (seen : Cache) (w : World D) :
  exists seen' w' tr,
    process_query query seen w = (Return seen', w')
    /\ trace w' = trace w ++ tr
    /\ (if known_key (map fst seen) query
        then seen' = seen /\ tr = [] /\ driver w' = driver w
        else map fst seen' = map fst seen ++ [query]
             /\ count_events is_pause tr = 1
             /\ count_events is_submit tr <= 1).
Proof.
  rewrite known_key_get.
  destruct (cache_get seen query) as [sr |] eqn:Hget.
  - exists seen; eexists; exists [].
    split; [apply (process_query_hit query seen sr w Hget) |].
    simpl; rewrite app_nil_r; auto.
  - destruct (process_query_miss query seen w Hget)
      as (sr & w1 & Hparse & _ & _ & Hstep).
    destruct (parse_trace query (snd (sleep_uniform 3 5 w)))
      as (tr & Htr & Hpause & Hsubmit).
    rewrite Hparse in Htr; simpl in Htr.
    exists (cache_set seen query sr); eexists; exists (Sleep 3 5 :: tr).
    split; [exact Hstep |].
    simpl; split; [now rewrite Htr, <- app_assoc |].
    split; [| split].
    + now rewrite (cache_set_new seen query sr Hget), map_app.
    + change (Sleep 3 5 :: tr) with ([Sleep 3 5] ++ tr).
      rewrite count_events_app, Hpause; reflexivity.
    + change (Sleep 3 5 :: tr) with ([Sleep 3 5] ++ tr).
      rewrite count_events_app; simpl; exact Hsubmit.
Qed.

Lemma process_queries_trace (queries : list value) :
  forall seen w,
    exists seen' w' tr,
      process_queries queries seen w = (Return seen', w')
      /\ trace w' = trace w ++ tr
      /\ map fst seen'
         = map fst seen ++ first_occurrences queries (map fst seen)
      /\ count_events is_pause tr
         = length (first_occurrences queries (map fst seen))
      /\ count_events is_submit tr
         <= length (first_occurrences queries (map fst seen)).
Proof.
  induction queries as [| query rest IH]; intros seen w.
  - exists seen, w, []; simpl; rewrite !app_nil_r; auto.
  - destruct (process_query_trace query seen w)
      as (seen1 & w1 & tr1 & Hstep & Htr1 & Hcase).
    destruct (IH seen1 w1)
      as (seen2 & w2 & tr2 & Hrun & Htr2 & Hkeys & Hpause & Hsubmit).
    exists seen2, w2, (tr1 ++ tr2).
    cbn [process_queries first_occurrences]; unfold bind.
    rewrite Hstep, Hrun, Htr2, Htr1, app_assoc, !count_events_app.
    split; [reflexivity |]. split; [reflexivity |].
    destruct (known_key (map fst seen) query).
    + destruct Hcase as (-> & -> & _); simpl; auto.
    + destruct Hcase as (Hkeys1 & Hpause1 & Hsubmit1).
      rewrite Hkeys1 in *; simpl.
      rewrite Hkeys, <- app_assoc; simpl.
      repeat split; lia.
Qed.

(** X12: when the loop ends the cache holds one entry per distinct query, under
    the first occurrence of each and in the order they came; every query of
    the input finds an entry, and there are never more entries than
    queries. *)
Theorem cache_holds_first_occurrences (queries : list value) (w : World D) :
  exists seen w',
    process_queries queries [] w = (Return seen, w')
    /\ map fst seen = first_occurrences queries []
    /\ length seen <= length queries
    /\ (forall q, In q queries -> cache_get seen q <> None).
Proof.
  destruct (process_queries_trace queries [] w)
    as (seen & w' & tr & Hrun & _ & Hkeys & _ & _).
  simpl in Hkeys.
  exists seen, w'; repeat split; auto.
  - rewrite <- (length_map fst), Hkeys.
    apply first_occurrences_length.
  - intros q Hin.
    pose proof (first_occurrences_cover queries [] q Hin) as Hknown.
    simpl in Hknown; rewrite <- Hkeys, known_key_get in Hknown.
    destruct (cache_get seen q); [discriminate | discriminate].
Qed.

(** X13: the loop pauses between 3 and 5 seconds once per distinct query and
    never for a repeated one; it submits the search form at most once per
    distinct query, hence at most once per query. *)
Theorem one_pause_per_distinct_query (queries : list value) (w : World D) :
  exists seen w' tr,
    process_queries queries [] w = (Return seen, w')
    /\ trace w' = trace w ++ tr
    /\ count_events is_pause tr = length (first_occurrences queries [])
    /\ count_events is_submit tr <= length (first_occurrences queries [])
    /\ length (first_occurrences queries []) <= length queries.
Proof.
  destruct (process_queries_trace queries [] w)
    as (seen & w' & tr & Hrun & Htr & _ & Hpause & Hsubmit).
  exists seen, w', tr; repeat split; auto.
  apply first_occurrences_length.
Qed.






End RunMore.

